(** * check_aws_budgets: a shallow embedding of the Icinga/Nagios plug-in

    The development follows [check_aws_budgets.py]:
    - [PyFloat]: the part of Python's [float] the plug-in uses
      ([float(str)], [>], the [.2f] format), over IEEE binary64;
    - the shapes of the boto3 responses the code indexes into;
    - [get_overspend] and [get_perfdata], in an exception monad;
    - [fetch_budget], [fetch_budgets] and [main], in a monad that threads
      standard output and carries exceptions and [sys.exit];
    - the properties of the evaluation pipeline. *)

From Stdlib Require Import ZArith List String Ascii Bool Lia.
From Stdlib Require Import SpecFloat DecimalString.
Import ListNotations.

Local Open Scope string_scope.
Local Open Scope Z_scope.

(** ** Python floats *)

Module PyFloat.

(** A Python [float] is an IEEE 754 binary64: 53 bits of precision,
    infinities at exponent 1024. *)
Definition prec : Z := 53.
Definition emax : Z := 1024.

Definition float : Type := spec_float.

(** [x > y] and [x == y] on floats. *)
Definition gt (x y : float) : bool := SFltb y x.
Definition eqb (x y : float) : bool := SFeqb x y.

(** Zeros and finite numbers, as opposed to infinities and NaN. *)
Definition finite (x : float) : bool :=
  match x with
  | S754_zero _ | S754_finite _ _ _ => true
  | _ => false
  end.

(** The representations a binary64 can have. *)
Definition valid (x : float) : bool := valid_binary prec emax x.

(** The number a finite float stands for, in units of [2 ^ -1074], the
    smallest positive binary64: an integer for every valid float. *)
Definition units (x : float) : Z :=
  match x with
  | S754_finite s m e => cond_Zopp s (Zpos m * 2 ^ (e + 1074))
  | _ => 0
  end.

(** The correctly rounded quotient [n / d] of two positive integers. *)
Definition of_ratio (s : bool) (n d : positive) : float :=
  SFdiv prec emax (S754_finite s n 0) (S754_finite false d 0).

Definition digit_of (c : ascii) : option Z :=
  let n := Z.of_N (N_of_ascii c) in
  if (48 <=? n) && (n <=? 57) then Some (n - 48) else None.

(** [digits s acc cnt] reads the longest run of ASCII digits at the head of
    [s]: the number read (continuing [acc]), how many digits were read
    (continuing [cnt]) and the rest of the string. *)
Fixpoint digits (s : string) (acc cnt : Z) : Z * Z * string :=
  match s with
  | String c s' =>
      match digit_of c with
      | Some d => digits s' (10 * acc + d) (cnt + 1)
      | None => (acc, cnt, s)
      end
  | EmptyString => (acc, cnt, s)
  end.

Definition of_decimal (s : bool) (m : Z) (scale : Z) : float :=
  match m with
  | Zpos p => of_ratio s p (Z.to_pos (10 ^ scale))
  | _ => S754_zero s
  end.

(** After the sign: [digits], [digits.], [digits.digits] or [.digits]. *)
Definition unsigned_of_str (sign : bool) (s : string) : option float :=
  let '(ip, ni, rest) := digits s 0 0 in
  match rest with
  | EmptyString =>
      if 0 <? ni then Some (of_decimal sign ip 0) else None
  | String "." frac =>
      let '(m, nf, rest') := digits frac ip 0 in
      match rest' with
      | EmptyString =>
          if 0 <? ni + nf then Some (of_decimal sign m nf) else None
      | _ => None
      end
  | _ => None
  end.

(** [float(s)] for a string [s]; [None] stands for [ValueError].

    The Budgets API sends amounts as plain decimal numerals
    ([([0-9]*\.)?[0-9]+]); these, with an optional sign, are the strings
    converted here, each to the nearest binary64 (ties to even), as CPython
    does.  CPython's [float] reads more (exponents, [inf], [nan],
    underscores, surrounding white space), which is not modelled: nothing
    below relies on one of those being rejected. *)
Definition of_str (s : string) : option float :=
  match s with
  | String "-" s' => unsigned_of_str true s'
  | String "+" s' => unsigned_of_str false s'
  | _ => unsigned_of_str false s
  end.

(** Rounding [n / d] to an integer, ties to even. *)
Definition round_half_even (n d : Z) : Z :=
  let q := n / d in
  let r := n mod d in
  match 2 * r ?= d with
  | Lt => q
  | Gt => q + 1
  | Eq => if Z.even q then q else q + 1
  end.

(** The magnitude of a finite float in hundredths, correctly rounded. *)
Definition hundredths (m : positive) (e : Z) : Z :=
  match e with
  | Zneg k => round_half_even (100 * Zpos m) (2 ^ Zpos k)
  | _ => 100 * Zpos m * 2 ^ e
  end.

Definition str_of_nat_Z (n : Z) : string :=
  NilZero.string_of_uint (N.to_uint (Z.to_N n)).

(** [h] hundredths in fixed notation with two decimals. *)
Definition fixed2 (h : Z) : string :=
  str_of_nat_Z (h / 100) ++ "." ++
  str_of_nat_Z (h mod 100 / 10) ++ str_of_nat_Z (h mod 10).

Definition sign_str (s : bool) : string := if s then "-" else "".

(** [format(x, '.2f')], the conversion behind [f"{x:.2f}"]. *)
Definition format_2f (x : float) : string :=
  match x with
  | S754_nan => "nan"
  | S754_infinity s => sign_str s ++ "inf"
  | S754_zero s => sign_str s ++ "0.00"
  | S754_finite s m e => sign_str s ++ fixed2 (hundredths m e)
  end.

(** The number a numeral stands for, exactly: [(z, k)] is [z / 10 ^ k].
    The numerals are those of [of_str], read the same way. *)
Definition unsigned_decimal (s : string) : option (Z * Z) :=
  let '(ip, ni, rest) := digits s 0 0 in
  match rest with
  | EmptyString =>
      if 0 <? ni then Some (ip, 0) else None
  | String "." frac =>
      let '(m, nf, rest') := digits frac ip 0 in
      match rest' with
      | EmptyString =>
          if 0 <? ni + nf then Some (m, nf) else None
      | _ => None
      end
  | _ => None
  end.

Definition negate (x : Z * Z) : Z * Z := (- fst x, snd x).

Definition decimal (s : string) : option (Z * Z) :=
  match s with
  | String "-" s' => option_map negate (unsigned_decimal s')
  | String "+" s' => unsigned_decimal s'
  | _ => unsigned_decimal s
  end.

(** [x > y] on the numbers themselves. *)
Definition decimal_gt (x y : Z * Z) : bool :=
  fst y * 10 ^ snd x <? fst x * 10 ^ snd y.

End PyFloat.

(** ** Exceptions and the two monads *)

(** The exceptions that can occur in a run.  [BotoCoreError] and [ClientError]
    are botocore's two unrelated families; each carries [str(err)]. *)
Inductive exn : Type :=
| KeyError (key : string)
| ValueError (arg : string)
| BotoCoreError (msg : string)
| ClientError (msg : string).

(** Code that computes a value or raises. *)
Inductive result (A : Type) : Type :=
| Ok (a : A)
| Raise (e : exn).
Arguments Ok {A} a.
Arguments Raise {A} e.

(** What ends a computation early: an exception, or [sys.exit(status)]. *)
Inductive signal : Type :=
| Raised (e : exn)
| SystemExit (status : Z).

Inductive step (A : Type) : Type :=
| Done (a : A)
| Stop (s : signal).
Arguments Done {A} a.
Arguments Stop {A} s.

(** Code that also prints: standard output so far goes in and comes out. *)
Definition io (A : Type) : Type := string -> string * step A.

Class Monad (M : Type -> Type) : Type := {
  ret : forall {A : Type}, A -> M A;
  bind : forall {A B : Type}, M A -> (A -> M B) -> M B
}.

#[export] Instance result_monad : Monad result := {
  ret := fun A a => Ok a;
  bind := fun A B m k =>
    match m with
    | Ok a => k a
    | Raise e => Raise e
    end
}.

#[export] Instance io_monad : Monad io := {
  ret := fun A a out => (out, Done a);
  bind := fun A B m k out =>
    match m out with
    | (out', Done a) => k a out'
    | (out', Stop s) => (out', Stop s)
    end
}.

Notation "x <- m ;; k" := (bind m (fun x => k))
  (at level 61, m at next level, right associativity).
Notation "m ;;; k" := (bind m (fun _ => k))
  (at level 61, right associativity).

(** A pure computation run inside [io]. *)
Definition lift {A : Type} (m : result A) : io A :=
  fun out =>
    match m with
    | Ok a => (out, Done a)
    | Raise e => (out, Stop (Raised e))
    end.

Definition nl : string := String "010" EmptyString.

(** [print(s)] and [sys.exit(status)]. *)
Definition print (s : string) : io unit :=
  fun out => (out ++ s ++ nl, Done tt).

Definition sys_exit {A : Type} (status : Z) : io A :=
  fun out => (out, Stop (SystemExit status)).

(** [try: body / except <caught> as err: handler err] in [io].  [caught e]
    tells whether the clause matches [e], and gives [str(err)] if it does. *)
Definition try_except {A : Type} (body : io A) (caught : exn -> option string)
    (handler : string -> io A) : io A :=
  fun out =>
    match body out with
    | (out', Stop (Raised e)) =>
        match caught e with
        | Some err => handler err out'
        | None => (out', Stop (Raised e))
        end
    | r => r
    end.

(** [try: body / except KeyError: handler] in [result]. *)
Definition try_except_KeyError {A : Type} (body handler : result A) : result A :=
  match body with
  | Raise (KeyError _) => handler
  | r => r
  end.

(** What the interpreter does with [main()]: the text written to standard
    output and the exit status of the process.  An exception nobody catches
    is reported on standard error and the status is 1. *)
Definition exit_status {A : Type} (r : step A) : Z :=
  match r with
  | Done _ => 0
  | Stop (SystemExit status) => status
  | Stop (Raised _) => 1
  end.

Definition run {A : Type} (p : io A) : string * Z :=
  let '(out, r) := p "" in (out, exit_status r).

(** ** The data the code indexes into *)

(** The dicts boto3 builds from the Budgets and STS responses.  A member the
    service left out is a missing key: [None] here, [KeyError] on access. *)
Record spend : Type := {
  Amount : option string;
  Unit : option string
}.

Record calculated_spend : Type := {
  ActualSpend : option spend;
  ForecastedSpend : option spend
}.

Record budget : Type := {
  BudgetName : option string;
  BudgetLimit : option spend;
  CalculatedSpend : option calculated_spend
}.

Record caller_identity : Type := { Account : option string }.
Record describe_budget_response : Type := { Budget : option budget }.
Record page : Type := { Budgets : option (list budget) }.

(** [d[key]]. *)
Definition item {A : Type} (key : string) (field : option A) : result A :=
  match field with
  | Some v => Ok v
  | None => Raise (KeyError key)
  end.

(** [float(s)]. *)
Definition float (s : string) : result PyFloat.float :=
  match PyFloat.of_str s with
  | Some x => Ok x
  | None => Raise (ValueError s)
  end.

Definition STATE_OK : Z := 0.
Definition STATE_WARN : Z := 1.
Definition STATE_CRIT : Z := 2.
Definition STATE_UNKNOWN : Z := 3.

(** ** The provider *)

(** boto3 as the plug-in uses it: [boto3.client(service)], the STS call, the
    single-budget call, and the pages the [describe_budgets] paginator
    yields, any of which may raise. *)
Record boto3 : Type := {
  client : string -> result unit;
  get_caller_identity : result caller_identity;
  describe_budget : string -> string -> result describe_budget_response;
  paginate : string -> list (result page)
}.

(** [except (BotoCoreError, ClientError) as err] and
    [except BotoCoreError as err]. *)
Definition BotoCoreError_or_ClientError (e : exn) : option string :=
  match e with
  | BotoCoreError msg | ClientError msg => Some msg
  | _ => None
  end.

Definition only_BotoCoreError (e : exn) : option string :=
  match e with
  | BotoCoreError msg => Some msg
  | _ => None
  end.

(** The handler of both fetch functions. *)
Definition unknown {A : Type} (err : string) : io A :=
  print ("UNKNOWN - " ++ err) ;;; sys_exit STATE_UNKNOWN.

(** The body of the [try] of [fetch_budget]. *)
Definition fetch_budget_try (aws : boto3) (name : string) : result budget :=
  client aws "sts" ;;;
  caller <- get_caller_identity aws ;;
  client aws "budgets" ;;;
  account <- item "Account" (Account caller) ;;
  response <- describe_budget aws account name ;;
  item "Budget" (Budget response).

Definition fetch_budget (aws : boto3) (name : string) : io budget :=
  try_except (lift (fetch_budget_try aws name))
    BotoCoreError_or_ClientError
    unknown.

(** The two nested loops over the pages and their budgets. *)
Fixpoint collect_pages (pages : list (result page)) (budgets : list budget)
    : result (list budget) :=
  match pages with
  | [] => Ok budgets
  | p :: pages' =>
      pg <- p ;;
      bs <- item "Budgets" (Budgets pg) ;;
      collect_pages pages' (budgets ++ bs)
  end.

(** The body of the [try] of [fetch_budgets]. *)
Definition fetch_budgets_try (aws : boto3) : result (list budget) :=
  client aws "sts" ;;;
  caller <- get_caller_identity aws ;;
  client aws "budgets" ;;;
  account <- item "Account" (Account caller) ;;
  collect_pages (paginate aws account) [].

Definition fetch_budgets (aws : boto3) : io (list budget) :=
  try_except (lift (fetch_budgets_try aws))
    only_BotoCoreError
    unknown.

(** ** The evaluator *)

(** The dict [{True: [], False: []}]. *)
Record overspend : Type := {
  res_true : list string;
  res_false : list string
}.

(** [res[key].append(s)]. *)
Definition res_append (res : overspend) (key : bool) (s : string) : overspend :=
  if key
  then {| res_true := res_true res ++ [s]; res_false := res_false res |}
  else {| res_true := res_true res; res_false := res_false res ++ [s] |}.

(** [budget['BudgetLimit']['Amount']]. *)
Definition limit_amount (b : budget) : result string :=
  bl <- item "BudgetLimit" (BudgetLimit b) ;;
  item "Amount" (Amount bl).

(** [budget['CalculatedSpend']['ForecastedSpend']['Amount']]. *)
Definition forecast_amount (b : budget) : result string :=
  cs <- item "CalculatedSpend" (CalculatedSpend b) ;;
  fs <- item "ForecastedSpend" (ForecastedSpend cs) ;;
  item "Amount" (Amount fs).

(** [budget['CalculatedSpend']['ActualSpend']['Amount']]. *)
Definition actual_amount (b : budget) : result string :=
  cs <- item "CalculatedSpend" (CalculatedSpend b) ;;
  sp <- item "ActualSpend" (ActualSpend cs) ;;
  item "Amount" (Amount sp).

(** [budget['CalculatedSpend']['ActualSpend']['Unit']]. *)
Definition actual_unit (b : budget) : result string :=
  cs <- item "CalculatedSpend" (CalculatedSpend b) ;;
  sp <- item "ActualSpend" (ActualSpend cs) ;;
  item "Unit" (Unit sp).

(** One turn of the loop of [get_overspend], up to the [append]: the key
    under which the budget is filed and the text that is filed.  The text of
    the [except] branch is a plain string literal in the source (it has no
    [f] prefix), so it is the same for every budget. *)
Definition classify (b : budget) : result (bool * string) :=
  name <- item "BudgetName" (BudgetName b) ;;
  la <- limit_amount b ;;
  limit <- float la ;;
  try_except_KeyError
    (fa <- forecast_amount b ;;
     forecast <- float fa ;;
     ret (PyFloat.gt forecast limit,
          name ++ "(fcst:" ++ PyFloat.format_2f forecast
               ++ ";limit:" ++ PyFloat.format_2f limit ++ ")"))
    (aa <- actual_amount b ;;
     actual <- float aa ;;
     ret (PyFloat.gt actual limit,
          "{name}(act:{actual:.2f};limit:{limit:.2f})")).

Fixpoint overspend_loop (budgets : list budget) (res : overspend)
    : result overspend :=
  match budgets with
  | [] => Ok res
  | b :: budgets' =>
      kd <- classify b ;;
      overspend_loop budgets' (res_append res (fst kd) (snd kd))
  end.

Definition get_overspend (budgets : list budget) : result overspend :=
  overspend_loop budgets {| res_true := []; res_false := [] |}.

(** One turn of the loop of [get_perfdata]: the token that is appended. *)
Definition perf_token (b : budget) : result string :=
  label <- item "BudgetName" (BudgetName b) ;;
  value <- actual_amount b ;;
  uom <- actual_unit b ;;
  limit <- limit_amount b ;;
  ret ("'" ++ label ++ "'=" ++ value ++ uom ++ ";" ++ limit ++ ";" ++ limit).

Fixpoint perfdata_loop (budgets : list budget) (perfdata : list string)
    : result (list string) :=
  match budgets with
  | [] => Ok perfdata
  | b :: budgets' =>
      t <- perf_token b ;;
      perfdata_loop budgets' (perfdata ++ [t])
  end.

Definition get_perfdata (budgets : list budget) : result string :=
  perfdata <- perfdata_loop budgets [] ;;
  ret ("| " ++ String.concat " " perfdata).

(** ** The command *)

(** A list, or the value of [--budget], in a condition. *)
Definition nonempty {A : Type} (l : list A) : bool :=
  match l with
  | [] => false
  | _ :: _ => true
  end.

Definition truthy (arg : option string) : option string :=
  match arg with
  | Some EmptyString => None
  | _ => arg
  end.

(** Lines 103 to 106: one named budget, or all of them. *)
Definition fetch (aws : boto3) (args_budget : option string)
    : io (list budget) :=
  match truthy args_budget with
  | Some name => b <- fetch_budget aws name ;; ret [b]
  | None => fetch_budgets aws
  end.

(** [main()] from line 103 on, given boto3 and [args.budget] ([None] without
    [--budget]): what the run does once [parser.parse_args()] has returned.
    The exits of [argparse] itself ([--help], an argument it does not
    accept) come before and are no part of this definition. *)
Definition main (aws : boto3) (args_budget : option string) : io unit :=
  budgets <- fetch aws args_budget ;;
  overspend <- lift (get_overspend budgets) ;;
  perfadata <- lift (get_perfdata budgets) ;;
  (if nonempty (res_true overspend)
   then print ("Budget forecast exceeds limit: "
               ++ String.concat ", " (res_true overspend) ++ perfadata) ;;;
        sys_exit STATE_CRIT
   else ret tt) ;;;
  print ("Budgets forecast within limit: "
         ++ String.concat ", " (res_false overspend) ++ perfadata) ;;;
  sys_exit STATE_OK.

(** ** Well-formed records *)

Definition is_ok {A : Type} (r : result A) : bool :=
  match r with
  | Ok _ => true
  | Raise _ => false
  end.

(** A record as the provider contract promises it: a name, a numeric limit,
    the actual spend with a numeric amount and a unit, and a forecast that is
    numeric when there is one. *)
Definition well_formed (b : budget) : bool :=
  is_ok (item "BudgetName" (BudgetName b))
  && is_ok (la <- limit_amount b ;; float la)
  && is_ok (aa <- actual_amount b ;; float aa)
  && is_ok (actual_unit b)
  && match forecast_amount b with
     | Ok fa => is_ok (float fa)
     | Raise _ => true
     end.

(** ** The budgets of the scenarios *)

Definition usd (amount : string) : spend :=
  {| Amount := Some amount; Unit := Some "USD" |}.

Definition mk_budget (name limit actual : string) (forecast : option string)
    : budget :=
  {| BudgetName := Some name;
     BudgetLimit := Some (usd limit);
     CalculatedSpend :=
       Some {| ActualSpend := Some (usd actual);
               ForecastedSpend := option_map usd forecast |} |}.

(** An account [123456789012] whose budgets come in the given pages. *)
Definition account_with (pages : list (result page)) : boto3 :=
  {| client := fun _ => Ok tt;
     get_caller_identity := Ok {| Account := Some "123456789012" |};
     describe_budget := fun _ name =>
       Raise (ClientError ("An error occurred (NotFoundException) when calling the DescribeBudget operation: Unable to get budget: " ++ name ++ " - the budget doesn't exist."));
     paginate := fun _ => pages |}.

Definition one_page (budgets : list budget) : result page :=
  Ok {| Budgets := Some budgets |}.

Definition scenario_A : budget := mk_budget "infra" "100.00" "80.00" (Some "120.00").
Definition scenario_B : budget := mk_budget "infra" "100.00" "80.00" None.
Definition compliant : budget := mk_budget "web" "50.0" "10.5" (Some "49.999").

(** ** What the statements below speak of *)

(** Filing classified records, in the order given. *)
Definition file_all (res : overspend) (cls : list (bool * string)) : overspend :=
  fold_left (fun r kd => res_append r (fst kd) (snd kd)) cls res.

Definition within (kd : bool * string) : bool := negb (fst kd).

(** The token of a record: its name in quotes, the amount and unit of the
    actual spend, and the limit twice, each as the provider sent it. *)
Definition metric_token (b : budget) (t : string) : Prop :=
  exists label value uom limit,
    BudgetName b = Some label
    /\ actual_amount b = Ok value
    /\ actual_unit b = Ok uom
    /\ limit_amount b = Ok limit
    /\ t = "'" ++ label ++ "'=" ++ value ++ uom ++ ";" ++ limit ++ ";" ++ limit.

(** ** More budgets and errors *)

(** A forecast of 100.0 against a limit of 100.00: equal, so within the
    limit. *)
Definition at_limit : budget := mk_budget "infra" "100.00" "80.00" (Some "100.0").


(** A record without [BudgetLimit]. *)
Definition no_limit : budget :=
  {| BudgetName := Some "infra";
     BudgetLimit := None;
     CalculatedSpend :=
       Some {| ActualSpend := Some (usd "80.00"); ForecastedSpend := None |} |}.

(** A record with a forecast and without [ActualSpend]. *)
Definition no_actual : budget :=
  {| BudgetName := Some "infra";
     BudgetLimit := Some (usd "100.00");
     CalculatedSpend :=
       Some {| ActualSpend := None; ForecastedSpend := Some (usd "120.00") |} |}.

(** The message of an authorization failure. *)
Definition access_denied : string :=
  "An error occurred (AccessDeniedException) when calling the DescribeBudgets operation: not authorized to perform: budgets:ViewBudget".

(** ** Sessions and further inputs *)

(** Both clients are created and STS names the account. *)
Definition session (aws : boto3) (account : string) : Prop :=
  client aws "sts" = Ok tt
  /\ client aws "budgets" = Ok tt
  /\ exists caller,
       get_caller_identity aws = Ok caller /\ Account caller = Some account.

(** An account [123456789012] where [describe_budget] answers [r] to every
    name and the paginator yields [pages]. *)
Definition account_answering (r : result describe_budget_response)
    (pages : list (result page)) : boto3 :=
  {| client := fun _ => Ok tt;
     get_caller_identity := Ok {| Account := Some "123456789012" |};
     describe_budget := fun _ _ => r;
     paginate := fun _ => pages |}.

(** A budget whose forecast is no numeral. *)
Definition not_numeric : budget := mk_budget "infra" "100.00" "80.00" (Some "TBD").

(** ASCII text without a digit and without the letter [n]: whatever else it
    holds, it is no numeral, no infinity and no NaN, so [float] has nothing
    to convert. *)
Fixpoint no_numeral (s : string) : bool :=
  match s with
  | EmptyString => true
  | String c s' =>
      let n := Z.of_N (N_of_ascii c) in
      (n <? 128) && negb ((48 <=? n) && (n <=? 57))
      && negb (n =? 110) && negb (n =? 78) && no_numeral s'
  end.

(** The token of a record, from its fields: the name, the amount and the
    unit under [ActualSpend], and the amount under [BudgetLimit] twice. *)
Definition token_of_record (b : budget) (t : string) : Prop :=
  exists label cs sp value uom bl limit,
    BudgetName b = Some label
    /\ CalculatedSpend b = Some cs
    /\ ActualSpend cs = Some sp
    /\ Amount sp = Some value /\ Unit sp = Some uom
    /\ BudgetLimit b = Some bl /\ Amount bl = Some limit
    /\ t = "'" ++ label ++ "'=" ++ value ++ uom ++ ";" ++ limit ++ ";" ++ limit.

(** Actual spend over the limit, forecast under it. *)
Definition actual_over : budget := mk_budget "infra" "100.00" "150.00" (Some "90.00").

(** No forecast, actual spend over the limit. *)
Definition no_forecast_over : budget := mk_budget "infra" "10" "20" None.

(** A forecast one above a limit of [2 ^ 53]: the two have the same nearest
    binary64. *)
Definition float_tie : budget :=
  mk_budget "infra" "9007199254740992" "0" (Some "9007199254740993").

(** A forecast a cent under the limit. *)
Definition a_cent_under : budget := mk_budget "infra" "100" "0" (Some "99.99").

(** An overspent budget, to be lost with its page. *)
Definition overspent : budget := mk_budget "db" "10" "20" (Some "30").

(** The message of a connection failure. *)
Definition endpoint_error : string :=
  "Could not connect to the endpoint URL: https://budgets.amazonaws.com/".

(** ** Numerals with two decimals *)

Definition is_digit (c : ascii) : bool :=
  match PyFloat.digit_of c with
  | Some _ => true
  | None => false
  end.

Fixpoint all_digits (s : string) : bool :=
  match s with
  | EmptyString => true
  | String c s' => is_digit c && all_digits s'
  end.

(** An optional minus sign, one digit or more, a point and two digits. *)
Definition two_decimals (s : string) : Prop :=
  exists sg ip c1 c2,
    s = sg ++ ip ++ "." ++ String c1 (String c2 "")
    /\ (sg = "" \/ sg = "-")
    /\ ip <> "" /\ all_digits ip = true
    /\ is_digit c1 = true /\ is_digit c2 = true.

(** * Properties *)

(** ** Float comparison *)

Lemma SFcompare_swap (x y : spec_float) :
  SFcompare y x = option_map CompOpp (SFcompare x y).
Proof.
  destruct x as [sx | sx | | sx mx ex], y as [sy | sy | | sy my ey];
    try destruct sx; try destruct sy; simpl; try reflexivity.
  - rewrite (Z.compare_antisym ey ex).
    destruct (ey ?= ex); simpl; try reflexivity.
    rewrite CompOpp_involutive. f_equal. symmetry. exact (ZC4 mx my).
  - rewrite (Z.compare_antisym ey ex).
    destruct (ey ?= ex); simpl; try reflexivity.
    f_equal. exact (ZC4 my mx).
Qed.

Lemma gt_irrefl (x : PyFloat.float) : PyFloat.gt x x = false.
Proof.
  unfold PyFloat.gt, SFltb.
  pose proof (SFcompare_swap x x) as H.
  destruct (SFcompare x x) as [[ | | ] | ]; simpl in H;
    try reflexivity; discriminate H.
Qed.

Lemma gt_asym (x y : PyFloat.float) :
  PyFloat.gt x y = true -> PyFloat.gt y x = false.
Proof.
  unfold PyFloat.gt, SFltb. rewrite (SFcompare_swap y x).
  destruct (SFcompare y x) as [[ | | ] | ]; simpl;
    intro H; try reflexivity; discriminate H.
Qed.

Lemma eqb_not_gt (x y : PyFloat.float) :
  PyFloat.eqb x y = true -> PyFloat.gt x y = false.
Proof.
  unfold PyFloat.gt, PyFloat.eqb, SFltb, SFeqb. rewrite (SFcompare_swap x y).
  destruct (SFcompare x y) as [[ | | ] | ]; simpl;
    intro H; try reflexivity; discriminate H.
Qed.


(** ** The numbers behind the comparison *)

Lemma digits2_bounds (m : positive) :
  2 ^ (Zpos (digits2_pos m) - 1) <= Zpos m < 2 ^ Zpos (digits2_pos m).
Proof.
  induction m as [p IH | p IH | ]; cbn [digits2_pos].
  - rewrite Pos2Z.inj_succ.
    replace (Z.succ (Z.pos (digits2_pos p)) - 1) with (Z.succ (Z.pos (digits2_pos p) - 1)) by lia.
    rewrite !Z.pow_succ_r by lia. lia.
  - rewrite Pos2Z.inj_succ.
    replace (Z.succ (Z.pos (digits2_pos p)) - 1) with (Z.succ (Z.pos (digits2_pos p) - 1)) by lia.
    rewrite !Z.pow_succ_r by lia. lia.
  - simpl. lia.
Qed.

Lemma bounded_canonical (m : positive) (e : Z) :
  bounded PyFloat.prec PyFloat.emax m e = true ->
  -1074 <= e
  /\ Zpos m < 2 ^ 53
  /\ (-1074 < e -> 2 ^ 52 <= Zpos m).
Proof.
  unfold bounded, canonical_mantissa, fexp, emin, PyFloat.prec, PyFloat.emax.
  intro H.
  apply andb_prop in H. destruct H as [H _]. apply Z.eqb_eq in H.
  pose proof (digits2_bounds m) as [Hlo Hhi].
  set (d := Zpos (digits2_pos m)) in *.
  assert (0 < d) by (unfold d; lia).
  split; [lia | split].
  - assert (d <= 53) by lia.
    eapply Z.lt_le_trans; [exact Hhi | ]. apply Z.pow_le_mono_r; lia.
  - intro He. assert (d = 53) as Hd by lia. rewrite Hd in Hlo. exact Hlo.
Qed.

Lemma magnitude_lt (m1 m2 e1 e2 : Z) :
  -1074 <= e1 -> e1 < e2 -> m1 < 2 ^ 53 -> 2 ^ 52 <= m2 ->
  m1 * 2 ^ (e1 + 1074) < m2 * 2 ^ (e2 + 1074).
Proof.
  intros He1 Hlt Hm1 Hm2.
  replace (e2 + 1074) with ((e1 + 1074) + (e2 - e1)) by lia.
  rewrite (Z.pow_add_r 2 (e1 + 1074) (e2 - e1)) by lia.
  set (A := 2 ^ (e1 + 1074)). set (K := 2 ^ (e2 - e1)).
  assert (0 < A) as HA by (apply Z.pow_pos_nonneg; lia).
  assert (2 ^ 1 <= K) as HK by (apply Z.pow_le_mono_r; lia).
  apply Z.lt_le_trans with (2 ^ 53 * A).
  - apply Z.mul_lt_mono_pos_r; assumption.
  - rewrite (Z.mul_comm A K), Z.mul_assoc.
    apply Z.mul_le_mono_nonneg_r; [lia | ].
    change (2 ^ 53) with (2 ^ 52 * 2 ^ 1).
    apply Z.mul_le_mono_nonneg; lia.
Qed.

Lemma compare_magnitudes (m1 m2 : positive) (e1 e2 : Z) :
  bounded PyFloat.prec PyFloat.emax m1 e1 = true -> bounded PyFloat.prec PyFloat.emax m2 e2 = true ->
  match e1 ?= e2 with
  | Lt => Lt
  | Gt => Gt
  | Eq => Pos.compare_cont Eq m1 m2
  end
  = (Zpos m1 * 2 ^ (e1 + 1074) ?= Zpos m2 * 2 ^ (e2 + 1074)).
Proof.
  intros H1 H2.
  destruct (bounded_canonical m1 e1 H1) as (He1 & Hm1 & Hn1).
  destruct (bounded_canonical m2 e2 H2) as (He2 & Hm2 & Hn2).
  destruct (Z.compare_spec e1 e2) as [Heq | Hlt | Hgt].
  - subst e2.
    rewrite <- Zmult_compare_compat_r
      by (apply Z.lt_gt, Z.pow_pos_nonneg; lia).
    reflexivity.
  - symmetry. apply Z.compare_lt_iff.
    apply magnitude_lt; try assumption. apply Hn2. lia.
  - symmetry. apply Z.compare_gt_iff.
    apply magnitude_lt; try assumption. apply Hn1. lia.
Qed.

(** On valid finite floats the comparison is that of the numbers. *)
Lemma SFcompare_units (x y : PyFloat.float) :
  PyFloat.valid x = true -> PyFloat.valid y = true ->
  PyFloat.finite x = true -> PyFloat.finite y = true ->
  SFcompare x y = Some (PyFloat.units x ?= PyFloat.units y).
Proof.
  unfold PyFloat.valid.
  destruct x as [sx | sx | | sx mx ex], y as [sy | sy | | sy my ey];
    cbn [valid_binary PyFloat.finite]; intros Vx Vy Fx Fy;
    try discriminate; cbn [SFcompare PyFloat.units].
  - reflexivity.
  - destruct (bounded_canonical my ey Vy) as (He & _).
    assert (0 < Zpos my * 2 ^ (ey + 1074)) by (apply Z.mul_pos_pos; [lia | apply Z.pow_pos_nonneg; lia]).
    destruct sy; cbn [cond_Zopp]; f_equal; symmetry;
      [apply Z.compare_gt_iff | apply Z.compare_lt_iff]; lia.
  - destruct (bounded_canonical mx ex Vx) as (He & _).
    assert (0 < Zpos mx * 2 ^ (ex + 1074)) by (apply Z.mul_pos_pos; [lia | apply Z.pow_pos_nonneg; lia]).
    destruct sx; cbn [cond_Zopp]; f_equal; symmetry;
      [apply Z.compare_lt_iff | apply Z.compare_gt_iff]; lia.
  - destruct (bounded_canonical mx ex Vx) as (Hex & _).
    destruct (bounded_canonical my ey Vy) as (Hey & _).
    assert (0 < Zpos mx * 2 ^ (ex + 1074)) by (apply Z.mul_pos_pos; [lia | apply Z.pow_pos_nonneg; lia]).
    assert (0 < Zpos my * 2 ^ (ey + 1074)) by (apply Z.mul_pos_pos; [lia | apply Z.pow_pos_nonneg; lia]).
    destruct sx, sy; cbn [cond_Zopp]; f_equal.
    + rewrite Z.compare_opp, <- (compare_magnitudes my mx ey ex Vy Vx).
      rewrite (Z.compare_antisym ey ex).
      destruct (ey ?= ex); simpl; try reflexivity.
      symmetry. apply (ZC4 my mx).
    + symmetry. apply Z.compare_lt_iff. lia.
    + symmetry. apply Z.compare_gt_iff. lia.
    + apply compare_magnitudes; assumption.
Qed.

Lemma gt_units (x y : PyFloat.float) :
  PyFloat.valid x = true -> PyFloat.valid y = true ->
  PyFloat.finite x = true -> PyFloat.finite y = true ->
  (PyFloat.gt x y = true <-> PyFloat.units y < PyFloat.units x).
Proof.
  intros Vx Vy Fx Fy. unfold PyFloat.gt, SFltb.
  rewrite (SFcompare_units y x Vy Vx Fy Fx).
  destruct (Z.compare_spec (PyFloat.units y) (PyFloat.units x));
    split; intro H'; try reflexivity; try discriminate H'; lia.
Qed.

(** ** The [.2f] format *)

Lemma str_of_digit (d : Z) :
  0 <= d <= 9 ->
  exists c, PyFloat.str_of_nat_Z d = String c "" /\ PyFloat.digit_of c = Some d.
Proof.
  intro Hd.
  assert (d = 0 \/ d = 1 \/ d = 2 \/ d = 3 \/ d = 4
          \/ d = 5 \/ d = 6 \/ d = 7 \/ d = 8 \/ d = 9) as Hcases by lia.
  repeat (destruct Hcases as [-> | Hcases];
          [eexists; split; reflexivity | ]).
  subst d. eexists; split; reflexivity.
Qed.

(** A finite float is rendered with a point followed by exactly two
    digits. *)
Lemma format_2f_finite (s : bool) (m : positive) (e : Z) :
  exists ip c1 c2 d1 d2,
    PyFloat.format_2f (S754_finite s m e)
    = PyFloat.sign_str s ++ ip ++ "." ++ String c1 (String c2 "")
    /\ PyFloat.digit_of c1 = Some d1 /\ PyFloat.digit_of c2 = Some d2.
Proof.
  set (h := PyFloat.hundredths m e).
  destruct (str_of_digit (h mod 100 / 10)) as (c1 & Hc1 & Hd1).
  { pose proof (Z.mod_pos_bound h 100 ltac:(lia)) as Hb.
    split; [apply Z.div_pos; lia | ].
    apply Z.lt_succ_r. apply Z.div_lt_upper_bound; lia. }
  destruct (str_of_digit (h mod 10)) as (c2 & Hc2 & Hd2).
  { pose proof (Z.mod_pos_bound h 10 ltac:(lia)). lia. }
  exists (PyFloat.str_of_nat_Z (h / 100)), c1, c2, (h mod 100 / 10), (h mod 10).
  split; [ | split; assumption].
  unfold PyFloat.format_2f, PyFloat.fixed2. fold h. rewrite Hc1, Hc2.
  reflexivity.
Qed.

(** ** Lookups and single records *)

Lemma item_Ok {A : Type} (key : string) (field : option A) (v : A) :
  item key field = Ok v <-> field = Some v.
Proof.
  unfold item. destruct field; split; intro H; inversion H; reflexivity.
Qed.

Lemma item_Raise {A : Type} (key : string) (field : option A) (e : exn) :
  item key field = Raise e -> e = KeyError key.
Proof.
  unfold item. destruct field; intro H; inversion H; reflexivity.
Qed.

(** The look-up of the forecast fails with [KeyError] only. *)
Lemma forecast_amount_Raise (b : budget) (e : exn) :
  forecast_amount b = Raise e -> exists key, e = KeyError key.
Proof.
  unfold forecast_amount. simpl.
  destruct (CalculatedSpend b) as [cs | ]; simpl.
  - destruct (ForecastedSpend cs) as [fs | ]; simpl.
    + intro H. apply item_Raise in H. eauto.
    + intro H. inversion H. eauto.
  - intro H. inversion H. eauto.
Qed.

Lemma classify_forecast (b : budget) (name la fa : string)
    (limit forecast : PyFloat.float) :
  BudgetName b = Some name ->
  limit_amount b = Ok la -> float la = Ok limit ->
  forecast_amount b = Ok fa -> float fa = Ok forecast ->
  classify b =
    Ok (PyFloat.gt forecast limit,
        name ++ "(fcst:" ++ PyFloat.format_2f forecast
             ++ ";limit:" ++ PyFloat.format_2f limit ++ ")").
Proof.
  intros Hn Hla Hl Hfa Hf. unfold classify.
  rewrite Hn, Hla. simpl. rewrite Hl. simpl.
  rewrite Hfa. simpl. rewrite Hf. reflexivity.
Qed.

Lemma classify_actual (b : budget) (name la aa : string)
    (limit actual : PyFloat.float) :
  BudgetName b = Some name ->
  limit_amount b = Ok la -> float la = Ok limit ->
  (forall fa, forecast_amount b <> Ok fa) ->
  actual_amount b = Ok aa -> float aa = Ok actual ->
  classify b =
    Ok (PyFloat.gt actual limit, "{name}(act:{actual:.2f};limit:{limit:.2f})").
Proof.
  intros Hn Hla Hl Hno Haa Ha. unfold classify.
  rewrite Hn, Hla. simpl. rewrite Hl. simpl.
  destruct (forecast_amount b) as [fa | e] eqn:Hfa.
  - exfalso. apply (Hno fa). reflexivity.
  - destruct (forecast_amount_Raise b e Hfa) as [key ->]. simpl.
    rewrite Haa. simpl. rewrite Ha. reflexivity.
Qed.

Lemma perf_token_fields (b : budget) (label value uom limit : string) :
  BudgetName b = Some label ->
  actual_amount b = Ok value -> actual_unit b = Ok uom ->
  limit_amount b = Ok limit ->
  perf_token b =
    Ok ("'" ++ label ++ "'=" ++ value ++ uom ++ ";" ++ limit ++ ";" ++ limit).
Proof.
  intros Hn Hv Hu Hl. unfold perf_token.
  rewrite Hn. simpl. rewrite Hv. simpl. rewrite Hu. simpl. rewrite Hl.
  reflexivity.
Qed.

Lemma is_ok_true {A : Type} (r : result A) :
  is_ok r = true -> exists a, r = Ok a.
Proof.
  destruct r as [a | e]; simpl; intro H; [eauto | discriminate H].
Qed.

(** What [well_formed] says, field by field. *)
Lemma well_formed_fields (b : budget) :
  well_formed b = true ->
  exists (name la aa uom : string) (limit actual : PyFloat.float),
    BudgetName b = Some name
    /\ limit_amount b = Ok la /\ float la = Ok limit
    /\ actual_amount b = Ok aa /\ float aa = Ok actual
    /\ actual_unit b = Ok uom
    /\ (forall fa, forecast_amount b = Ok fa -> exists f, float fa = Ok f).
Proof.
  unfold well_formed. intro H.
  apply andb_prop in H. destruct H as [H Hf].
  apply andb_prop in H. destruct H as [H Hu].
  apply andb_prop in H. destruct H as [H Ha].
  apply andb_prop in H. destruct H as [Hn Hl].
  apply is_ok_true in Hn. destruct Hn as [name Hn]. apply item_Ok in Hn.
  apply is_ok_true in Hu. destruct Hu as [uom Hu].
  destruct (limit_amount b) as [la | ] eqn:Hla; [ | discriminate Hl].
  destruct (actual_amount b) as [aa | ] eqn:Haa; [ | discriminate Ha].
  simpl in Hl, Ha.
  apply is_ok_true in Hl. destruct Hl as [limit Hl].
  apply is_ok_true in Ha. destruct Ha as [actual Ha].
  exists name, la, aa, uom, limit, actual.
  repeat split; try assumption.
  intros fa Hfa. rewrite Hfa in Hf. apply is_ok_true in Hf. exact Hf.
Qed.

Lemma well_formed_classify (b : budget) :
  well_formed b = true -> exists kd, classify b = Ok kd.
Proof.
  intro H. apply well_formed_fields in H.
  destruct H as (name & la & aa & uom & limit & actual
                 & Hn & Hla & Hl & Haa & Ha & _ & Hf).
  destruct (forecast_amount b) as [fa | e] eqn:Hfa.
  - destruct (Hf fa eq_refl) as [f Hfl].
    eexists. eapply classify_forecast; eassumption.
  - eexists. eapply classify_actual; try eassumption.
    intros fa Heq. rewrite Hfa in Heq. discriminate Heq.
Qed.

Lemma well_formed_perf_token (b : budget) :
  well_formed b = true -> exists t, perf_token b = Ok t.
Proof.
  intro H. apply well_formed_fields in H.
  destruct H as (name & la & aa & uom & limit & actual
                 & Hn & Hla & Hl & Haa & Ha & Hu & _).
  eexists. eapply perf_token_fields; eassumption.
Qed.

(** ** The two loops *)

Lemma file_all_true (cls : list (bool * string)) (res : overspend) :
  res_true (file_all res cls) = (res_true res ++ map snd (filter fst cls))%list.
Proof.
  unfold file_all. revert res.
  induction cls as [ | [k d] cls IH]; intro res; simpl.
  - rewrite app_nil_r. reflexivity.
  - rewrite IH. destruct k; simpl; [rewrite <- app_assoc | ]; reflexivity.
Qed.

Lemma file_all_false (cls : list (bool * string)) (res : overspend) :
  res_false (file_all res cls)
  = (res_false res ++ map snd (filter within cls))%list.
Proof.
  unfold file_all. revert res.
  induction cls as [ | [k d] cls IH]; intro res; simpl.
  - rewrite app_nil_r. reflexivity.
  - rewrite IH. destruct k; simpl; [ | rewrite <- app_assoc]; reflexivity.
Qed.

Lemma overspend_loop_Ok (budgets : list budget) (res res' : overspend) :
  overspend_loop budgets res = Ok res' <->
  exists cls,
    Forall2 (fun b kd => classify b = Ok kd) budgets cls
    /\ res' = file_all res cls.
Proof.
  revert res. induction budgets as [ | b budgets IH]; intro res; simpl.
  - split.
    + intro H. inversion H. exists []. split; [constructor | reflexivity].
    + intros (cls & HF & ->). inversion HF. reflexivity.
  - destruct (classify b) as [kd | e] eqn:Hc; simpl.
    + rewrite IH. split.
      * intros (cls & HF & ->). exists (kd :: cls).
        split; [constructor; assumption | reflexivity].
      * intros (cls & HF & ->). inversion HF as [ | ? kd' ? cls' Hkd HF']; subst.
        rewrite Hc in Hkd. inversion Hkd; subst.
        exists cls'. split; [assumption | reflexivity].
    + split; [intro H; discriminate H | ].
      intros (cls & HF & _). inversion HF as [ | ? kd' ? cls' Hkd HF']; subst.
      rewrite Hc in Hkd. discriminate Hkd.
Qed.

Lemma perfdata_loop_Ok (budgets : list budget) (acc r : list string) :
  perfdata_loop budgets acc = Ok r <->
  exists tokens,
    Forall2 (fun b t => perf_token b = Ok t) budgets tokens
    /\ r = (acc ++ tokens)%list.
Proof.
  revert acc. induction budgets as [ | b budgets IH]; intro acc; simpl.
  - split.
    + intro H. inversion H. exists []. rewrite app_nil_r.
      split; [constructor | reflexivity].
    + intros (ts & HF & ->). inversion HF. rewrite app_nil_r. reflexivity.
  - destruct (perf_token b) as [t | e] eqn:Ht; simpl.
    + rewrite IH. split.
      * intros (ts & HF & ->). exists (t :: ts). rewrite <- app_assoc.
        split; [constructor; assumption | reflexivity].
      * intros (ts & HF & ->). inversion HF as [ | ? t' ? ts' Ht' HF']; subst.
        rewrite Ht in Ht'. inversion Ht'; subst.
        exists ts'. rewrite <- app_assoc. split; [assumption | reflexivity].
    + split; [intro H; discriminate H | ].
      intros (ts & HF & _). inversion HF as [ | ? t' ? ts' Ht' HF']; subst.
      rewrite Ht in Ht'. discriminate Ht'.
Qed.

Lemma Forall2_total {A B : Type} (f : A -> result B) (ok : A -> bool)
    (l : list A) :
  (forall a, ok a = true -> exists b, f a = Ok b) ->
  forallb ok l = true ->
  exists l', Forall2 (fun a b => f a = Ok b) l l'.
Proof.
  intros Hok. induction l as [ | a l IH]; simpl; intro H.
  - exists []. constructor.
  - apply andb_prop in H. destruct H as [Ha Hl].
    destruct (Hok a Ha) as [b Hb]. destruct (IH Hl) as [l' Hl'].
    exists (b :: l'). constructor; assumption.
Qed.

Lemma get_overspend_Ok (budgets : list budget) (res : overspend) :
  get_overspend budgets = Ok res <->
  exists cls,
    Forall2 (fun b kd => classify b = Ok kd) budgets cls
    /\ res = {| res_true := map snd (filter fst cls);
                res_false := map snd (filter within cls) |}.
Proof.
  unfold get_overspend. rewrite overspend_loop_Ok.
  split; intros (cls & HF & ->); exists cls; (split; [assumption | ]).
  - pose proof (file_all_true cls {| res_true := []; res_false := [] |}) as Ht.
    pose proof (file_all_false cls {| res_true := []; res_false := [] |}) as Hf.
    destruct (file_all _ cls) as [t f]. simpl in Ht, Hf. subst. reflexivity.
  - pose proof (file_all_true cls {| res_true := []; res_false := [] |}) as Ht.
    pose proof (file_all_false cls {| res_true := []; res_false := [] |}) as Hf.
    destruct (file_all _ cls) as [t f]. simpl in Ht, Hf. subst. reflexivity.
Qed.

Lemma get_perfdata_Ok (budgets : list budget) (perf : string) :
  get_perfdata budgets = Ok perf <->
  exists tokens,
    Forall2 (fun b t => perf_token b = Ok t) budgets tokens
    /\ perf = "| " ++ String.concat " " tokens.
Proof.
  unfold get_perfdata. simpl.
  destruct (perfdata_loop budgets []) as [r | e] eqn:Hloop.
  - apply perfdata_loop_Ok in Hloop. destruct Hloop as (ts & HF & ->).
    simpl. split.
    + intro H. inversion H. exists ts. split; [assumption | reflexivity].
    + intros (ts' & HF' & ->). f_equal. f_equal. f_equal. f_equal.
      clear - HF HF'. revert ts' HF'.
      induction HF as [ | b t bs ts Hb HF IH]; intros ts' HF'.
      * inversion HF'. reflexivity.
      * inversion HF' as [ | ? t' ? ts'' Hb' HF'']; subst.
        rewrite Hb in Hb'. inversion Hb'; subst. f_equal. apply IH, HF''.
  - simpl. split; [intro H; discriminate H | ].
    intros (ts & HF & _).
    assert (perfdata_loop budgets [] = Ok ([] ++ ts)%list) as H
        by (apply perfdata_loop_Ok; eauto).
    rewrite Hloop in H. discriminate H.
Qed.

(** ** The command after a successful fetch *)

Lemma append_assoc (a b c : string) : (a ++ b) ++ c = a ++ b ++ c.
Proof.
  induction a as [ | ch a IH]; simpl; [reflexivity | f_equal; exact IH].
Qed.

Lemma Forall2_In_l {A B : Type} (R : A -> B -> Prop) (l : list A)
    (l' : list B) (a : A) :
  Forall2 R l l' -> In a l -> exists b, In b l' /\ R a b.
Proof.
  induction 1 as [ | x y l l' Hxy HF IH]; simpl; intro Hin.
  - contradiction.
  - destruct Hin as [-> | Hin].
    + exists y. split; [left; reflexivity | assumption].
    + destruct (IH Hin) as (b & Hb & HR). exists b. split; [right | ]; assumption.
Qed.

Lemma Forall2_impl {A B : Type} (R R' : A -> B -> Prop) (l : list A)
    (l' : list B) :
  (forall a b, R a b -> R' a b) -> Forall2 R l l' -> Forall2 R' l l'.
Proof.
  intros HR. induction 1; constructor; auto.
Qed.

Lemma well_formed_evaluates (budgets : list budget) :
  forallb well_formed budgets = true ->
  exists cls tokens,
    Forall2 (fun b kd => classify b = Ok kd) budgets cls
    /\ Forall2 (fun b t => perf_token b = Ok t) budgets tokens
    /\ get_overspend budgets =
         Ok {| res_true := map snd (filter fst cls);
               res_false := map snd (filter within cls) |}
    /\ get_perfdata budgets = Ok ("| " ++ String.concat " " tokens).
Proof.
  intro Hwf.
  destruct (Forall2_total classify well_formed budgets
              well_formed_classify Hwf) as [cls Hcls].
  destruct (Forall2_total perf_token well_formed budgets
              well_formed_perf_token Hwf) as [tokens Htok].
  exists cls, tokens. repeat split; try assumption.
  - apply get_overspend_Ok. exists cls. split; [assumption | reflexivity].
  - apply get_perfdata_Ok. exists tokens. split; [assumption | reflexivity].
Qed.

Lemma nonempty_In {A : Type} (l : list A) (a : A) :
  In a l -> nonempty l = true.
Proof.
  destruct l; simpl; [contradiction | reflexivity].
Qed.

Lemma perf_token_Ok (b : budget) (t : string) :
  perf_token b = Ok t <-> metric_token b t.
Proof.
  split.
  - unfold perf_token. cbn [bind result_monad ret].
    destruct (BudgetName b) as [label | ] eqn:Hn; cbn [item]; [ | discriminate].
    destruct (actual_amount b) as [value | ] eqn:Hv; [ | discriminate].
    destruct (actual_unit b) as [uom | ] eqn:Hu; [ | discriminate].
    destruct (limit_amount b) as [limit | ] eqn:Hl; [ | discriminate].
    intro H. inversion H. exists label, value, uom, limit.
    repeat split; assumption || reflexivity.
  - intros (label & value & uom & limit & Hn & Hv & Hu & Hl & ->).
    apply perf_token_fields; assumption.
Qed.

(** The accessors, on records whose fields are known. *)
Lemma limit_amount_fields (b : budget) (bl : spend) (la : string) :
  BudgetLimit b = Some bl -> Amount bl = Some la -> limit_amount b = Ok la.
Proof.
  intros Hbl Hla. unfold limit_amount. cbn [bind result_monad].
  rewrite Hbl. cbn [item]. rewrite Hla. reflexivity.
Qed.

Lemma forecast_amount_fields (b : budget) (cs : calculated_spend)
    (fs : spend) (fa : string) :
  CalculatedSpend b = Some cs -> ForecastedSpend cs = Some fs ->
  Amount fs = Some fa -> forecast_amount b = Ok fa.
Proof.
  intros Hcs Hfs Hfa. unfold forecast_amount. cbn [bind result_monad].
  rewrite Hcs. cbn [item]. rewrite Hfs. cbn [item]. rewrite Hfa. reflexivity.
Qed.

Lemma forecast_amount_absent (b : budget) (cs : calculated_spend) (fa : string) :
  CalculatedSpend b = Some cs -> ForecastedSpend cs = None ->
  forecast_amount b <> Ok fa.
Proof.
  intros Hcs Hfs. unfold forecast_amount. cbn [bind result_monad].
  rewrite Hcs. cbn [item]. rewrite Hfs. cbn [item]. discriminate.
Qed.

Lemma actual_amount_fields (b : budget) (cs : calculated_spend)
    (sp : spend) (aa : string) :
  CalculatedSpend b = Some cs -> ActualSpend cs = Some sp ->
  Amount sp = Some aa -> actual_amount b = Ok aa.
Proof.
  intros Hcs Hsp Haa. unfold actual_amount. cbn [bind result_monad].
  rewrite Hcs. cbn [item]. rewrite Hsp. cbn [item]. rewrite Haa. reflexivity.
Qed.

(** [of_str] converts the number that [decimal] reads. *)
Lemma unsigned_of_str_decimal (sg : bool) (s : string) :
  PyFloat.unsigned_of_str sg s
  = option_map (fun x => PyFloat.of_decimal sg (fst x) (snd x))
      (PyFloat.unsigned_decimal s).
Proof.
  unfold PyFloat.unsigned_of_str, PyFloat.unsigned_decimal.
  destruct (PyFloat.digits s 0 0) as [[ip ni] rest].
  destruct rest as [ | c frac].
  - destruct (0 <? ni); reflexivity.
  - destruct c as [[ | ] [ | ] [ | ] [ | ] [ | ] [ | ] [ | ] [ | ]];
      try reflexivity.
    destruct (PyFloat.digits frac ip 0) as [[m nf] rest'].
    destruct rest'; [ | reflexivity].
    destruct (0 <? ni + nf); reflexivity.
Qed.

Lemma digits_nonneg (t : string) (acc cnt : Z) :
  0 <= acc -> 0 <= fst (fst (PyFloat.digits t acc cnt)).
Proof.
  revert acc cnt. induction t as [ | c t IH]; intros acc cnt Hacc;
    cbn [PyFloat.digits].
  - exact Hacc.
  - unfold PyFloat.digit_of.
    destruct ((48 <=? Z.of_N (N_of_ascii c))
              && (Z.of_N (N_of_ascii c) <=? 57)) eqn:Hc; [ | exact Hacc].
    apply IH. apply andb_prop in Hc. destruct Hc as [Hlo _].
    apply Z.leb_le in Hlo. lia.
Qed.

Lemma unsigned_decimal_nonneg (s : string) (m k : Z) :
  PyFloat.unsigned_decimal s = Some (m, k) -> 0 <= m.
Proof.
  unfold PyFloat.unsigned_decimal.
  pose proof (digits_nonneg s 0 0 ltac:(lia)) as H0.
  destruct (PyFloat.digits s 0 0) as [[ip ni] rest]. simpl in H0.
  destruct rest as [ | c frac].
  - destruct (0 <? ni); intro H; inversion H; subst; exact H0.
  - destruct c as [[ | ] [ | ] [ | ] [ | ] [ | ] [ | ] [ | ] [ | ]];
      try discriminate.
    pose proof (digits_nonneg frac ip 0 H0) as H1.
    destruct (PyFloat.digits frac ip 0) as [[m' nf] rest']. simpl in H1.
    destruct rest'; [ | discriminate].
    destruct (0 <? ni + nf); intro H; inversion H; subst; exact H1.
Qed.

Lemma of_str_decimal (s : string) (x : PyFloat.float) :
  PyFloat.of_str s = Some x ->
  exists z k sg,
    PyFloat.decimal s = Some (z, k)
    /\ x = PyFloat.of_decimal sg (Z.abs z) k.
Proof.
  assert (forall sg t,
             PyFloat.unsigned_of_str sg t = Some x ->
             exists m k,
               PyFloat.unsigned_decimal t = Some (m, k)
               /\ Z.abs m = m /\ x = PyFloat.of_decimal sg m k) as Hu.
  { intros sg t H. rewrite unsigned_of_str_decimal in H.
    destruct (PyFloat.unsigned_decimal t) as [[m k] | ] eqn:Hd;
      simpl in H; inversion H.
    exists m, k. repeat split.
    apply Z.abs_eq. apply (unsigned_decimal_nonneg t m k Hd). }
  unfold PyFloat.of_str, PyFloat.decimal.
  destruct s as [ | c t].
  - intro H. destruct (Hu false "" H) as (m & k & Hd & Hm & ->).
    exists m, k, false. rewrite Hm. split; [exact Hd | reflexivity].
  - destruct c as [[ | ] [ | ] [ | ] [ | ] [ | ] [ | ] [ | ] [ | ]];
      intro H;
      match type of H with
      | PyFloat.unsigned_of_str true ?u = _ =>
          destruct (Hu true u H) as (m & k & Hd & Hm & ->);
          exists (- m), k, true; rewrite Hd, Z.abs_opp, Hm;
          split; reflexivity
      | PyFloat.unsigned_of_str false ?u = _ =>
          destruct (Hu false u H) as (m & k & Hd & Hm & ->);
          exists m, k, false; rewrite Hm; split; [exact Hd | reflexivity]
      end.
Qed.

(** * The evaluation pipeline *)

(** ** One record *)

(** C1.  Forecast first.  For a record with a name, a numeric limit and a
    [CalculatedSpend]: when [ForecastedSpend] holds a numeric amount, the
    record is filed under [forecast > limit] with an [fcst] descriptor,
    whatever [ActualSpend] holds; when there is no [ForecastedSpend], it is
    filed under [actual > limit], [actual] being the amount under
    [ActualSpend]. *)
Theorem forecast_first (b : budget) (name la : string) (bl : spend)
    (cs : calculated_spend) (limit : PyFloat.float) :
  BudgetName b = Some name ->
  BudgetLimit b = Some bl -> Amount bl = Some la -> float la = Ok limit ->
  CalculatedSpend b = Some cs ->
  (forall fs fa forecast,
      ForecastedSpend cs = Some fs -> Amount fs = Some fa ->
      float fa = Ok forecast ->
      classify b =
        Ok (PyFloat.gt forecast limit,
            name ++ "(fcst:" ++ PyFloat.format_2f forecast
                 ++ ";limit:" ++ PyFloat.format_2f limit ++ ")"))
  /\ (forall sp aa actual,
         ForecastedSpend cs = None ->
         ActualSpend cs = Some sp -> Amount sp = Some aa ->
         float aa = Ok actual ->
         classify b =
           Ok (PyFloat.gt actual limit,
               "{name}(act:{actual:.2f};limit:{limit:.2f})")).
Proof.
  intros Hn Hbl Hla Hl Hcs.
  pose proof (limit_amount_fields b bl la Hbl Hla) as Hlimit.
  split.
  - intros fs fa forecast Hfs Hfa Hf.
    eapply classify_forecast; try eassumption.
    eapply forecast_amount_fields; eassumption.
  - intros sp aa actual Hfs Hsp Haa Ha.
    eapply classify_actual; try eassumption.
    + intro fa. eapply forecast_amount_absent; eassumption.
    + eapply actual_amount_fields; eassumption.
Qed.

(** With a forecast, the forecast decides: 120 against 100 is overspent
    though the actual spend is 80, and 90 against 100 is not though the
    actual spend is 150.  Without one, the actual spend decides: 20 against
    10 is overspent, 80 against 100 is not. *)
Lemma forecast_first_witness :
  classify scenario_A = Ok (true, "infra(fcst:120.00;limit:100.00)")
  /\ classify actual_over = Ok (false, "infra(fcst:90.00;limit:100.00)")
  /\ classify no_forecast_over
     = Ok (true, "{name}(act:{actual:.2f};limit:{limit:.2f})")
  /\ classify scenario_B
     = Ok (false, "{name}(act:{actual:.2f};limit:{limit:.2f})").
Proof.
  split; [ | split; [ | split]].
  - exact (proj1 (forecast_first scenario_A "infra" "100.00" (usd "100.00")
                    {| ActualSpend := Some (usd "80.00");
                       ForecastedSpend := Some (usd "120.00") |}
                    (S754_finite false 7036874417766400 (-46))
                    eq_refl eq_refl eq_refl eq_refl eq_refl)
             (usd "120.00") "120.00"
             (S754_finite false 8444249301319680 (-46))
             eq_refl eq_refl eq_refl).
  - exact (proj1 (forecast_first actual_over "infra" "100.00" (usd "100.00")
                    {| ActualSpend := Some (usd "150.00");
                       ForecastedSpend := Some (usd "90.00") |}
                    (S754_finite false 7036874417766400 (-46))
                    eq_refl eq_refl eq_refl eq_refl eq_refl)
             (usd "90.00") "90.00"
             (S754_finite false 6333186975989760 (-46))
             eq_refl eq_refl eq_refl).
  - exact (proj2 (forecast_first no_forecast_over "infra" "10" (usd "10")
                    {| ActualSpend := Some (usd "20");
                       ForecastedSpend := None |}
                    (S754_finite false 5629499534213120 (-49))
                    eq_refl eq_refl eq_refl eq_refl eq_refl)
             (usd "20") "20"
             (S754_finite false 5629499534213120 (-48))
             eq_refl eq_refl eq_refl eq_refl).
  - exact (proj2 (forecast_first scenario_B "infra" "100.00" (usd "100.00")
                    {| ActualSpend := Some (usd "80.00");
                       ForecastedSpend := None |}
                    (S754_finite false 7036874417766400 (-46))
                    eq_refl eq_refl eq_refl eq_refl eq_refl)
             (usd "80.00") "80.00"
             (S754_finite false 5629499534213120 (-46))
             eq_refl eq_refl eq_refl eq_refl).
Defined.

(** C3 as written does not hold: the comparison is made after [float], and
    a forecast of 9007199254740993 has the same nearest binary64 as a limit
    of 9007199254740992.  The forecast is the greater number, yet the
    record is filed as within the limit. *)
Lemma greater_amount_within_limit :
  PyFloat.decimal "9007199254740993" = Some (9007199254740993, 0)
  /\ PyFloat.decimal "9007199254740992" = Some (9007199254740992, 0)
  /\ PyFloat.decimal_gt (9007199254740993, 0) (9007199254740992, 0) = true
  /\ classify float_tie
     = Ok (false,
           "infra(fcst:9007199254740992.00;limit:9007199254740992.00)").
Proof.
  repeat split.
Qed.

(** C3, as the code has it.  The key under which a record is filed is
    [amount > limit] on the floats that [float] makes of the two amounts of
    the record, [amount] being that of the forecast when there is one and
    that of the actual spend otherwise.  The comparison is strict: when the
    two floats are equal, as they are when the two amounts are the same
    numeral, the key is [False]; and a key [True] excludes both
    [amount == limit] and [limit > amount]. *)
Theorem strict_inequality (b : budget) (name la ca : string) (bl : spend)
    (cs : calculated_spend) (limit amount : PyFloat.float) :
  BudgetName b = Some name ->
  BudgetLimit b = Some bl -> Amount bl = Some la -> float la = Ok limit ->
  CalculatedSpend b = Some cs ->
  (exists fs, ForecastedSpend cs = Some fs /\ Amount fs = Some ca)
  \/ (ForecastedSpend cs = None
      /\ exists sp, ActualSpend cs = Some sp /\ Amount sp = Some ca) ->
  float ca = Ok amount ->
  (exists d, classify b = Ok (PyFloat.gt amount limit, d))
  /\ (PyFloat.eqb amount limit = true ->
      exists d, classify b = Ok (false, d))
  /\ (ca = la -> exists d, classify b = Ok (false, d))
  /\ (PyFloat.gt amount limit = true ->
      PyFloat.eqb amount limit = false /\ PyFloat.gt limit amount = false).
Proof.
  intros Hn Hbl Hla Hl Hcs Hca Ha.
  pose proof (limit_amount_fields b bl la Hbl Hla) as Hlimit.
  assert (exists d, classify b = Ok (PyFloat.gt amount limit, d)) as Hc.
  { destruct Hca as [(fs & Hfs & Hfa) | (Hfs & sp & Hsp & Haa)].
    - eexists. eapply classify_forecast; try eassumption.
      eapply forecast_amount_fields; eassumption.
    - eexists. eapply classify_actual; try eassumption.
      + intro fa. eapply forecast_amount_absent; eassumption.
      + eapply actual_amount_fields; eassumption. }
  split; [exact Hc | split; [ | split]].
  - intro Heq. rewrite (eqb_not_gt amount limit Heq) in Hc. exact Hc.
  - intro Hsame. subst ca. rewrite Hl in Ha. inversion Ha; subst amount.
    rewrite gt_irrefl in Hc. exact Hc.
  - intro Hgt. split.
    + destruct (PyFloat.eqb amount limit) eqn:Heq; [ | reflexivity].
      rewrite (eqb_not_gt amount limit Heq) in Hgt. discriminate Hgt.
    + apply gt_asym. exact Hgt.
Qed.

(** A forecast of 100.0 against a limit of 100.00 is within the limit, and
    so is one of 99.99 against 100; 120.00 against 100.00 is not. *)
Lemma strict_inequality_witness :
  (exists d, classify at_limit = Ok (false, d))
  /\ (exists d, classify a_cent_under = Ok (false, d))
  /\ (exists d, classify scenario_A = Ok (true, d)).
Proof.
  split; [ | split].
  - exact (proj1 (proj2 (strict_inequality at_limit "infra" "100.00" "100.0"
                           (usd "100.00")
                           {| ActualSpend := Some (usd "80.00");
                              ForecastedSpend := Some (usd "100.0") |}
                           (S754_finite false 7036874417766400 (-46))
                           (S754_finite false 7036874417766400 (-46))
                           eq_refl eq_refl eq_refl eq_refl eq_refl
                           (or_introl (ex_intro _ (usd "100.0")
                                         (conj eq_refl eq_refl)))
                           eq_refl))
             eq_refl).
  - exact (proj1 (strict_inequality a_cent_under "infra" "100" "99.99"
                    (usd "100")
                    {| ActualSpend := Some (usd "0");
                       ForecastedSpend := Some (usd "99.99") |}
                    (S754_finite false 7036874417766400 (-46))
                    (S754_finite false 7036170730324623 (-46))
                    eq_refl eq_refl eq_refl eq_refl eq_refl
                    (or_introl (ex_intro _ (usd "99.99")
                                  (conj eq_refl eq_refl)))
                    eq_refl)).
  - exact (proj1 (strict_inequality scenario_A "infra" "100.00" "120.00"
                    (usd "100.00")
                    {| ActualSpend := Some (usd "80.00");
                       ForecastedSpend := Some (usd "120.00") |}
                    (S754_finite false 7036874417766400 (-46))
                    (S754_finite false 8444249301319680 (-46))
                    eq_refl eq_refl eq_refl eq_refl eq_refl
                    (or_introl (ex_intro _ (usd "120.00")
                                  (conj eq_refl eq_refl)))
                    eq_refl)).
Defined.

(** C4 (defect).  Scenario B is filed on its actual spend; the text filed is
    the template itself, braces and all, and that is what the line shows. *)
Theorem scenario_B_descriptor :
  get_overspend [scenario_B]
  = Ok {| res_true := [];
          res_false := ["{name}(act:{actual:.2f};limit:{limit:.2f})"] |}
  /\ run (main (account_with [one_page [scenario_B]]) None)
     = ("Budgets forecast within limit: {name}(act:{actual:.2f};limit:{limit:.2f})"
          ++ "| 'infra'=80.00USD;100.00;100.00" ++ nl, 0).
Proof.
  split; reflexivity.
Qed.



(** ** A list of records *)

(** C9.  Classification is total on well-formed records and files every
    record exactly once: [get_overspend] returns, and the lengths of its two
    lists add up to the number of records. *)
Theorem classification_total (budgets : list budget) :
  forallb well_formed budgets = true ->
  exists res,
    get_overspend budgets = Ok res
    /\ (List.length (res_true res) + List.length (res_false res)
        = List.length budgets)%nat.
Proof.
  intro Hwf.
  destruct (well_formed_evaluates budgets Hwf) as (cls & _ & Hcls & _ & Hres & _).
  eexists. split; [exact Hres | ]. simpl.
  rewrite !length_map, (Forall2_length Hcls).
  clear. induction cls as [ | [[ | ] d] cls IH]; simpl; lia.
Qed.

Lemma classification_total_witness :
  exists res,
    get_overspend [scenario_A; compliant; scenario_B] = Ok res
    /\ (List.length (res_true res) + List.length (res_false res) = 3)%nat.
Proof.
  exact (classification_total [scenario_A; compliant; scenario_B] eq_refl).
Defined.

(** The token is made of the fields of the record. *)
Lemma perf_token_record (b : budget) (t : string) :
  perf_token b = Ok t <-> token_of_record b t.
Proof.
  unfold perf_token, actual_amount, actual_unit, limit_amount, token_of_record.
  cbn [bind result_monad ret]. split.
  - destruct (BudgetName b) as [label | ]; cbn [item]; [ | discriminate].
    destruct (CalculatedSpend b) as [cs | ]; cbn [item]; [ | discriminate].
    destruct (ActualSpend cs) as [sp | ] eqn:Hsp; cbn [item]; [ | discriminate].
    destruct (Amount sp) as [value | ] eqn:Hv; cbn [item]; [ | discriminate].
    destruct (Unit sp) as [uom | ] eqn:Hu; cbn [item]; [ | discriminate].
    destruct (BudgetLimit b) as [bl | ]; cbn [item]; [ | discriminate].
    destruct (Amount bl) as [limit | ] eqn:Hl; cbn [item]; [ | discriminate].
    intro H. inversion H. exists label, cs, sp, value, uom, bl, limit.
    repeat split; assumption.
  - intros (label & cs & sp & value & uom & bl & limit
            & -> & -> & Hsp & Hv & Hu & -> & Hl & ->).
    cbn [item]. rewrite Hsp. cbn [item]. rewrite Hv, Hu. cbn [item].
    rewrite Hl. reflexivity.
Qed.

(** ** The run, once the records are fetched *)

Section Fetched.

Variables (aws : boto3) (args_budget : option string) (budgets : list budget).

(** The fetch returned [budgets]; it printed nothing. *)
Hypothesis fetched : fetch aws args_budget "" = ("", Done budgets).

Lemma main_reports (res : overspend) (perf : string) :
  get_overspend budgets = Ok res ->
  get_perfdata budgets = Ok perf ->
  main aws args_budget "" =
    if nonempty (res_true res)
    then ("Budget forecast exceeds limit: "
            ++ String.concat ", " (res_true res) ++ perf ++ nl,
          Stop (SystemExit STATE_CRIT))
    else ("Budgets forecast within limit: "
            ++ String.concat ", " (res_false res) ++ perf ++ nl,
          Stop (SystemExit STATE_OK)).
Proof.
  intros Hres Hperf. unfold main. cbn [bind io_monad].
  rewrite fetched. unfold lift. rewrite Hres, Hperf.
  destruct (nonempty (res_true res)); unfold print, sys_exit; cbn [ret];
    rewrite !append_assoc; reflexivity.
Qed.

(** An exception raised by either evaluator function leaves [main]
    uncaught, with nothing printed. *)
Lemma main_raises :
  (forall res perf, get_overspend budgets = Ok res ->
                    get_perfdata budgets = Ok perf -> False) ->
  exists e, main aws args_budget "" = ("", Stop (Raised e)).
Proof.
  intros Hno. unfold main. cbn [bind io_monad].
  rewrite fetched. unfold lift.
  destruct (get_overspend budgets) as [res | e]; [ | eauto].
  destruct (get_perfdata budgets) as [perf | e]; [ | eauto].
  exfalso. eapply Hno; reflexivity.
Qed.

(** C2.  Aggregation and exit codes.  After a successful fetch of well-formed
    records: if some record is overspent the run prints the CRITICAL line and
    exits with 2; if none is, it prints the OK line and exits with 0; with no
    records at all the OK line has no descriptor and no token. *)
Theorem aggregation_exit_codes :
  forallb well_formed budgets = true ->
  ((exists b d, In b budgets /\ classify b = Ok (true, d)) ->
   exists text,
     run (main aws args_budget) = ("Budget forecast exceeds limit: " ++ text, 2))
  /\ ((forall b, In b budgets -> exists d, classify b = Ok (false, d)) ->
      exists text,
        run (main aws args_budget)
        = ("Budgets forecast within limit: " ++ text, 0))
  /\ (budgets = [] ->
      run (main aws args_budget) = ("Budgets forecast within limit: | " ++ nl, 0)).
Proof.
  intros Hwf.
  destruct (well_formed_evaluates budgets Hwf)
    as (cls & tokens & Hcls & Htok & Hres & Hperf).
  pose proof (main_reports _ _ Hres Hperf) as Hmain.
  cbn [res_true res_false] in Hmain.
  split; [ | split].
  - intros (b & d & Hin & Hb).
    destruct (Forall2_In_l _ _ _ b Hcls Hin) as (kd & Hkd & Hc).
    rewrite Hb in Hc. inversion Hc; subst kd.
    assert (nonempty (map snd (filter fst cls)) = true) as Hne.
    { apply (nonempty_In _ d). apply (in_map snd _ (true, d)).
      apply filter_In. split; [assumption | reflexivity]. }
    rewrite Hne in Hmain. unfold run. rewrite Hmain.
    eexists. reflexivity.
  - intro Hall.
    assert (filter fst cls = []) as Hnil.
    { clear - Hall Hcls. induction Hcls as [ | b [k d] bs cls Hb HF IH]; simpl.
      - reflexivity.
      - destruct (Hall b (or_introl eq_refl)) as [d' Hd'].
        rewrite Hb in Hd'. inversion Hd'; subst. simpl.
        apply IH. intros b' Hin. apply Hall. right. exact Hin. }
    rewrite Hnil in Hmain. simpl in Hmain. unfold run. rewrite Hmain.
    eexists. reflexivity.
  - intros Hnil. rewrite Hnil in Hcls, Htok.
    inversion Hcls; subst. inversion Htok; subst.
    simpl in Hmain. unfold run. rewrite Hmain. reflexivity.
Qed.

(** C8.  Partition and coverage.  After a successful fetch of well-formed
    records, [get_overspend] returns the descriptors of the overspent records
    and those of the others, each in the order of the input; when some record
    is overspent the line lists the overspent descriptors only, followed by
    one token for every record. *)
Theorem partition_and_coverage :
  forallb well_formed budgets = true ->
  exists cls tokens,
    Forall2 (fun b kd => classify b = Ok kd) budgets cls
    /\ Forall2 (fun b t => perf_token b = Ok t) budgets tokens
    /\ get_overspend budgets =
         Ok {| res_true := map snd (filter fst cls);
               res_false := map snd (filter within cls) |}
    /\ (existsb fst cls = true ->
        run (main aws args_budget)
        = ("Budget forecast exceeds limit: "
             ++ String.concat ", " (map snd (filter fst cls))
             ++ "| " ++ String.concat " " tokens ++ nl, 2)).
Proof.
  intros Hwf.
  destruct (well_formed_evaluates budgets Hwf)
    as (cls & tokens & Hcls & Htok & Hres & Hperf).
  exists cls, tokens. repeat split; try assumption.
  intro Hex.
  pose proof (main_reports _ _ Hres Hperf) as Hmain.
  cbn [res_true res_false] in Hmain.
  assert (nonempty (map snd (filter fst cls)) = true) as Hne.
  { apply existsb_exists in Hex. destruct Hex as ([k d] & Hin & Hk).
    apply (nonempty_In _ d). apply (in_map snd _ (k, d)).
    apply filter_In. split; assumption. }
  rewrite Hne in Hmain. unfold run. rewrite Hmain.
  rewrite !append_assoc. reflexivity.
Qed.

(** C7.  Perfdata rendering.  After a successful fetch of well-formed
    records, every record has a token ['name'=<amount><unit>;<limit>;<limit>]
    where amount and unit are those under [ActualSpend] (nothing under
    [ForecastedSpend] is part of it) and limit is the amount under
    [BudgetLimit]; the block is ["| "] followed by the tokens joined by a
    space, and the line printed is the summary followed by that block. *)
Theorem perfdata_rendering (res : overspend) :
  forallb well_formed budgets = true ->
  get_overspend budgets = Ok res ->
  exists tokens,
    Forall2 token_of_record budgets tokens
    /\ get_perfdata budgets = Ok ("| " ++ String.concat " " tokens)
    /\ fst (run (main aws args_budget))
       = (if nonempty (res_true res)
          then "Budget forecast exceeds limit: "
                 ++ String.concat ", " (res_true res)
          else "Budgets forecast within limit: "
                 ++ String.concat ", " (res_false res))
         ++ "| " ++ String.concat " " tokens ++ nl.
Proof.
  intros Hwf Hres.
  destruct (well_formed_evaluates budgets Hwf)
    as (cls & tokens & _ & Htok & _ & Hperf).
  exists tokens. split; [ | split].
  - eapply Forall2_impl; [ | exact Htok].
    intros b t. apply perf_token_record.
  - exact Hperf.
  - unfold run. rewrite (main_reports _ _ Hres Hperf).
    destruct (nonempty (res_true res)); cbn [fst];
      rewrite !append_assoc; reflexivity.
Qed.

(** C6, as the code has it.  If a fetched record lacks the amount of its
    limit or of its actual spend, the run ends with an exception that
    nothing catches: no line is printed, no record is skipped, and the
    status is 1. *)
Theorem malformed_record_aborts (b : budget) :
  In b budgets ->
  is_ok (limit_amount b) = false \/ is_ok (actual_amount b) = false ->
  exists e,
    main aws args_budget "" = ("", Stop (Raised e))
    /\ run (main aws args_budget) = ("", 1).
Proof.
  intros Hin Hmissing.
  destruct main_raises as [e He].
  - intros res perf _ Hperf.
    apply get_perfdata_Ok in Hperf. destruct Hperf as (tokens & Htok & _).
    destruct (Forall2_In_l _ _ _ b Htok Hin) as (t & _ & Ht).
    apply perf_token_Ok in Ht.
    destruct Ht as (label & value & uom & limit & _ & Hv & _ & Hl & _).
    rewrite Hv, Hl in Hmissing. destruct Hmissing as [H | H]; discriminate H.
  - exists e. split; [exact He | ]. unfold run. rewrite He. reflexivity.
Qed.

End Fetched.

Lemma aggregation_exit_codes_witness :
  (exists text,
      run (main (account_with [one_page [compliant; scenario_A]]) None)
      = ("Budget forecast exceeds limit: " ++ text, 2))
  /\ (exists text,
         run (main (account_with [one_page [compliant]]) None)
         = ("Budgets forecast within limit: " ++ text, 0))
  /\ run (main (account_with []) None)
     = ("Budgets forecast within limit: | " ++ nl, 0).
Proof.
  split; [ | split].
  - apply (proj1 (aggregation_exit_codes
                    (account_with [one_page [compliant; scenario_A]]) None
                    [compliant; scenario_A] eq_refl eq_refl)).
    exists scenario_A, "infra(fcst:120.00;limit:100.00)".
    split; [right; left; reflexivity | reflexivity].
  - apply (proj1 (proj2 (aggregation_exit_codes
                           (account_with [one_page [compliant]]) None
                           [compliant] eq_refl eq_refl))).
    intros b [<- | []]. eexists. reflexivity.
  - exact (proj2 (proj2 (aggregation_exit_codes (account_with []) None []
                           eq_refl eq_refl)) eq_refl).
Defined.

(** Scenario E: [infra] is overspent on its forecast, [web] is compliant. *)
Lemma partition_and_coverage_witness :
  run (main (account_with [one_page [scenario_A; compliant]]) None)
  = ("Budget forecast exceeds limit: infra(fcst:120.00;limit:100.00)"
       ++ "| 'infra'=80.00USD;100.00;100.00 'web'=10.5USD;50.0;50.0" ++ nl, 2).
Proof.
  destruct (partition_and_coverage
              (account_with [one_page [scenario_A; compliant]]) None
              [scenario_A; compliant] eq_refl eq_refl)
    as (cls & tokens & Hcls & Htok & _ & Hrun).
  inversion Hcls as [ | ? kd1 ? cls1 H1 Hcls1]; subst.
  inversion Hcls1 as [ | ? kd2 ? cls2 H2 Hcls2]; subst.
  inversion Hcls2; subst.
  inversion Htok as [ | ? t1 ? ts1 T1 Htok1]; subst.
  inversion Htok1 as [ | ? t2 ? ts2 T2 Htok2]; subst.
  inversion Htok2; subst.
  vm_compute in H1, H2, T1, T2.
  inversion H1; inversion H2; inversion T1; inversion T2; subst.
  exact (Hrun eq_refl).
Defined.

(** Scenario E again: [infra] has a forecast of 120.00 and an actual spend
    of 80.00, and its token carries 80.00. *)
Lemma perfdata_rendering_witness :
  get_perfdata [scenario_A; compliant]
  = Ok "| 'infra'=80.00USD;100.00;100.00 'web'=10.5USD;50.0;50.0"
  /\ fst (run (main (account_with [one_page [scenario_A; compliant]]) None))
     = "Budget forecast exceeds limit: infra(fcst:120.00;limit:100.00)"
         ++ "| 'infra'=80.00USD;100.00;100.00 'web'=10.5USD;50.0;50.0" ++ nl.
Proof.
  destruct (perfdata_rendering
              (account_with [one_page [scenario_A; compliant]]) None
              [scenario_A; compliant] eq_refl
              {| res_true := ["infra(fcst:120.00;limit:100.00)"];
                 res_false := ["web(fcst:50.00;limit:50.00)"] |}
              eq_refl eq_refl)
    as (tokens & Htok & Hperf & Hline).
  inversion Htok as [ | ? t1 ? ts1 T1 Htok1]; subst.
  inversion Htok1 as [ | ? t2 ? ts2 T2 Htok2]; subst.
  inversion Htok2; subst.
  destruct T1 as (label1 & cs1 & sp1 & value1 & uom1 & bl1 & limit1
                  & Hn1 & Hcs1 & Hsp1 & Hv1 & Hu1 & Hbl1 & Hl1 & ->).
  destruct T2 as (label2 & cs2 & sp2 & value2 & uom2 & bl2 & limit2
                  & Hn2 & Hcs2 & Hsp2 & Hv2 & Hu2 & Hbl2 & Hl2 & ->).
  cbn in Hn1, Hcs1, Hbl1, Hn2, Hcs2, Hbl2.
  inversion Hn1; inversion Hcs1; inversion Hbl1; subst.
  inversion Hn2; inversion Hcs2; inversion Hbl2; subst.
  cbn in Hsp1, Hl1, Hsp2, Hl2.
  inversion Hsp1; inversion Hl1; inversion Hsp2; inversion Hl2; subst.
  cbn in Hv1, Hu1, Hv2, Hu2.
  inversion Hv1; inversion Hu1; inversion Hv2; inversion Hu2; subst.
  split; [exact Hperf | exact Hline].
Defined.

(** C6 as written does not hold: a record without a limit ends the run with
    status 1 and no line, not with UNKNOWN. *)
Lemma malformed_record_not_unknown :
  run (main (account_with [one_page [compliant; no_limit]]) None) = ("", 1)
  /\ snd (run (main (account_with [one_page [compliant; no_limit]]) None))
     <> STATE_UNKNOWN.
Proof.
  split; [reflexivity | ]. intro H. discriminate H.
Qed.

Lemma malformed_record_aborts_witness :
  (exists e,
      main (account_with [one_page [compliant; no_limit]]) None ""
      = ("", Stop (Raised e))
      /\ run (main (account_with [one_page [compliant; no_limit]]) None)
         = ("", 1))
  /\ (exists e,
         main (account_with [one_page [no_actual]]) None ""
         = ("", Stop (Raised e))
         /\ run (main (account_with [one_page [no_actual]]) None) = ("", 1)).
Proof.
  split.
  - apply (malformed_record_aborts
             (account_with [one_page [compliant; no_limit]]) None
             [compliant; no_limit] eq_refl no_limit).
    + right; left; reflexivity.
    + left; reflexivity.
  - apply (malformed_record_aborts
             (account_with [one_page [no_actual]]) None
             [no_actual] eq_refl no_actual).
    + left; reflexivity.
    + right; reflexivity.
Defined.

(** ** Provider failures *)

(** Running [main] up to the handler of a fetch function. *)
Ltac run_fetch :=
  unfold run, main, fetch, fetch_budget, fetch_budgets, try_except, lift;
  cbn [bind io_monad].

Ltac run_handler :=
  unfold unknown, print, sys_exit; cbn [bind io_monad exit_status];
  rewrite ?append_assoc.

(** X1.  In the named-budget mode both families of errors, raised anywhere
    in the [try] of [fetch_budget], end the run as UNKNOWN: the line is
    [UNKNOWN - ] and the message of the error, the status is 3, and nothing
    is evaluated. *)
Lemma named_mode_failure (aws : boto3) (args_budget : option string)
    (name msg : string) (e : exn) :
  truthy args_budget = Some name ->
  fetch_budget_try aws name = Raise e ->
  BotoCoreError_or_ClientError e = Some msg ->
  run (main aws args_budget) = ("UNKNOWN - " ++ msg ++ nl, 3).
Proof.
  intros Harg Htry He. run_fetch. rewrite Harg. cbn [bind io_monad].
  rewrite Htry, He. run_handler. reflexivity.
Qed.

(** X2.  In the all-budgets mode a [BotoCoreError], raised anywhere in the
    [try] of [fetch_budgets], does the same. *)
Lemma all_mode_BotoCoreError (aws : boto3) (args_budget : option string)
    (msg : string) :
  truthy args_budget = None ->
  fetch_budgets_try aws = Raise (BotoCoreError msg) ->
  run (main aws args_budget) = ("UNKNOWN - " ++ msg ++ nl, 3).
Proof.
  intros Harg Htry. run_fetch. rewrite Harg, Htry. cbn [only_BotoCoreError].
  run_handler. reflexivity.
Qed.

(** In the all-budgets mode no clause matches a [ClientError]: it leaves
    [main], nothing is printed and the status is 1. *)
Lemma all_mode_ClientError (aws : boto3) (args_budget : option string)
    (msg : string) :
  truthy args_budget = None ->
  fetch_budgets_try aws = Raise (ClientError msg) ->
  main aws args_budget "" = ("", Stop (Raised (ClientError msg)))
  /\ run (main aws args_budget) = ("", 1).
Proof.
  intros Harg Htry. run_fetch. rewrite Harg, Htry. cbn [only_BotoCoreError].
  split; reflexivity.
Qed.

(** C5 (defect).  An authorization failure of [describe_budgets] reaches the
    all-budgets mode as a [ClientError]: the run prints nothing and ends with
    status 1, where the named-budget mode, given the same error, prints the
    UNKNOWN line and ends with status 3. *)
Theorem all_budgets_ClientError_uncaught :
  run (main (account_with [Raise (ClientError access_denied)]) None) = ("", 1)
  /\ run (main {| client := fun _ => Ok tt;
                  get_caller_identity := Ok {| Account := Some "123456789012" |};
                  describe_budget := fun _ _ => Raise (ClientError access_denied);
                  paginate := fun _ => [] |} (Some "infra"))
     = ("UNKNOWN - " ++ access_denied ++ nl, 3).
Proof.
  split; reflexivity.
Qed.

Lemma named_mode_failure_witness :
  run (main (account_answering (Raise (BotoCoreError endpoint_error)) [])
         (Some "infra"))
  = ("UNKNOWN - " ++ endpoint_error ++ nl, 3).
Proof.
  exact (named_mode_failure
           (account_answering (Raise (BotoCoreError endpoint_error)) [])
           (Some "infra") "infra" endpoint_error (BotoCoreError endpoint_error)
           eq_refl eq_refl eq_refl).
Defined.

Lemma all_mode_BotoCoreError_witness :
  run (main (account_with [Raise (BotoCoreError endpoint_error)]) (Some ""))
  = ("UNKNOWN - " ++ endpoint_error ++ nl, 3).
Proof.
  exact (all_mode_BotoCoreError
           (account_with [Raise (BotoCoreError endpoint_error)]) (Some "")
           endpoint_error eq_refl eq_refl).
Defined.

(** * Further properties of the code *)

(** ** Fetching *)

Lemma session_fetch_budget_try (aws : boto3) (account name : string) :
  session aws account ->
  fetch_budget_try aws name =
    (response <- describe_budget aws account name ;;
     item "Budget" (Budget response)).
Proof.
  intros (Hsts & Hbud & caller & Hcaller & Hacc).
  unfold fetch_budget_try. cbn [bind result_monad].
  rewrite Hsts, Hcaller, Hbud, Hacc. reflexivity.
Qed.

Lemma session_fetch_budgets_try (aws : boto3) (account : string) :
  session aws account ->
  fetch_budgets_try aws = collect_pages (paginate aws account) [].
Proof.
  intros (Hsts & Hbud & caller & Hcaller & Hacc).
  unfold fetch_budgets_try. cbn [bind result_monad].
  rewrite Hsts, Hcaller, Hbud, Hacc. reflexivity.
Qed.

(** Pages that arrive whole add their budgets, in order, to those collected
    so far. *)
Lemma collect_pages_app (ls : list (list budget)) (rest : list (result page))
    (acc : list budget) :
  collect_pages (map one_page ls ++ rest)%list acc
  = collect_pages rest (acc ++ List.concat ls)%list.
Proof.
  revert acc. induction ls as [ | l ls IH]; intro acc; simpl.
  - rewrite app_nil_r. reflexivity.
  - rewrite IH, <- app_assoc. reflexivity.
Qed.

(** What [fetch] leaves behind, by mode. *)
Lemma fetch_named (aws : boto3) (args_budget : option string) (name : string) :
  truthy args_budget = Some name ->
  fetch aws args_budget "" =
    match fetch_budget_try aws name with
    | Ok b => ("", Done [b])
    | Raise e =>
        match BotoCoreError_or_ClientError e with
        | Some msg => ("UNKNOWN - " ++ msg ++ nl, Stop (SystemExit STATE_UNKNOWN))
        | None => ("", Stop (Raised e))
        end
    end.
Proof.
  intro Harg. unfold fetch, fetch_budget, try_except, lift. rewrite Harg.
  cbn [bind io_monad].
  destruct (fetch_budget_try aws name) as [b | e]; [reflexivity | ].
  destruct (BotoCoreError_or_ClientError e) as [msg | ]; [ | reflexivity].
  run_handler. reflexivity.
Qed.

Lemma fetch_all (aws : boto3) (args_budget : option string) :
  truthy args_budget = None ->
  fetch aws args_budget "" =
    match fetch_budgets_try aws with
    | Ok budgets => ("", Done budgets)
    | Raise e =>
        match only_BotoCoreError e with
        | Some msg => ("UNKNOWN - " ++ msg ++ nl, Stop (SystemExit STATE_UNKNOWN))
        | None => ("", Stop (Raised e))
        end
    end.
Proof.
  intro Harg. unfold fetch, fetch_budgets, try_except, lift. rewrite Harg.
  destruct (fetch_budgets_try aws) as [budgets | e]; [reflexivity | ].
  destruct (only_BotoCoreError e) as [msg | ]; [ | reflexivity].
  run_handler. reflexivity.
Qed.

(** When the fetch stops, so does [main], with the same output. *)
Lemma main_fetch_stops (aws : boto3) (args_budget : option string)
    (out : string) (s : signal) :
  fetch aws args_budget "" = (out, Stop s) ->
  main aws args_budget "" = (out, Stop s).
Proof.
  intro H. unfold main. cbn [bind io_monad]. rewrite H. reflexivity.
Qed.

(** X3.  Pagination is transparent.  In the all-budgets mode, when every
    page arrives, the budgets handed to the evaluator are those of all the
    pages, in the order of the pages and within each page; nothing is
    printed by the fetch. *)
Theorem fetch_all_pages (aws : boto3) (args_budget : option string)
    (account : string) (ls : list (list budget)) :
  truthy args_budget = None ->
  session aws account ->
  paginate aws account = map one_page ls ->
  fetch aws args_budget "" = ("", Done (List.concat ls)).
Proof.
  intros Harg Hs Hpages. rewrite (fetch_all aws args_budget Harg).
  rewrite (session_fetch_budgets_try aws account Hs), Hpages.
  rewrite <- (app_nil_r (map one_page ls)), collect_pages_app.
  reflexivity.
Qed.

Lemma fetch_all_pages_witness :
  fetch (account_with [one_page [scenario_A]; one_page []; one_page [compliant; overspent]])
    None ""
  = ("", Done [scenario_A; compliant; overspent]).
Proof.
  apply (fetch_all_pages _ None "123456789012"
           [[scenario_A]; []; [compliant; overspent]] eq_refl).
  - repeat split. eexists. split; reflexivity.
  - reflexivity.
Defined.

(** X4.  No partial evaluation.  In the all-budgets mode, when a page fails
    with a [BotoCoreError] after others have arrived, the budgets of the
    earlier pages are dropped: the run prints the UNKNOWN line only and ends
    with status 3, whatever those budgets were. *)
Theorem later_page_failure (aws : boto3) (args_budget : option string)
    (account msg : string) (ls : list (list budget))
    (rest : list (result page)) :
  truthy args_budget = None ->
  session aws account ->
  paginate aws account
  = (map one_page ls ++ Raise (BotoCoreError msg) :: rest)%list ->
  run (main aws args_budget) = ("UNKNOWN - " ++ msg ++ nl, 3).
Proof.
  intros Harg Hs Hpages. unfold run.
  rewrite (main_fetch_stops aws args_budget ("UNKNOWN - " ++ msg ++ nl)
             (SystemExit STATE_UNKNOWN)); [reflexivity | ].
  rewrite (fetch_all aws args_budget Harg).
  rewrite (session_fetch_budgets_try aws account Hs), Hpages.
  rewrite collect_pages_app. reflexivity.
Qed.

Lemma later_page_failure_witness :
  run (main (account_with [one_page [overspent];
                           Raise (BotoCoreError endpoint_error);
                           one_page [compliant]]) None)
  = ("UNKNOWN - " ++ endpoint_error ++ nl, 3).
Proof.
  apply (later_page_failure _ None "123456789012" endpoint_error
           [[overspent]] [one_page [compliant]] eq_refl).
  - repeat split. eexists. split; reflexivity.
  - reflexivity.
Defined.

(** X5.  Missing keys of a response are not provider failures.  With the
    session established, a [describe_budget] response without ['Budget'], or
    a page without ['Budgets'] after pages that arrived whole, raises a
    [KeyError] that no clause catches: nothing is printed and the status
    is 1. *)
Theorem missing_response_key (aws : boto3) (account : string) :
  session aws account ->
  (forall args_budget name response,
      truthy args_budget = Some name ->
      describe_budget aws account name = Ok response ->
      Budget response = None ->
      main aws args_budget "" = ("", Stop (Raised (KeyError "Budget")))
      /\ run (main aws args_budget) = ("", 1))
  /\ (forall args_budget ls rest,
         truthy args_budget = None ->
         paginate aws account
         = (map one_page ls ++ Ok {| Budgets := None |} :: rest)%list ->
         main aws args_budget "" = ("", Stop (Raised (KeyError "Budgets")))
         /\ run (main aws args_budget) = ("", 1)).
Proof.
  intro Hs. split.
  - intros args_budget name response Harg Hresp Hkey.
    assert (main aws args_budget "" = ("", Stop (Raised (KeyError "Budget"))))
      as Hmain.
    { apply main_fetch_stops. rewrite (fetch_named aws args_budget name Harg).
      rewrite (session_fetch_budget_try aws account name Hs), Hresp.
      cbn [bind result_monad]. rewrite Hkey. reflexivity. }
    split; [exact Hmain | ]. unfold run. rewrite Hmain. reflexivity.
  - intros args_budget ls rest Harg Hpages.
    assert (main aws args_budget "" = ("", Stop (Raised (KeyError "Budgets"))))
      as Hmain.
    { apply main_fetch_stops. rewrite (fetch_all aws args_budget Harg).
      rewrite (session_fetch_budgets_try aws account Hs), Hpages.
      rewrite collect_pages_app. reflexivity. }
    split; [exact Hmain | ]. unfold run. rewrite Hmain. reflexivity.
Qed.

Lemma missing_response_key_witness :
  run (main (account_answering (Ok {| Budget := None |}) []) (Some "infra"))
  = ("", 1)
  /\ run (main (account_answering (Ok {| Budget := None |})
                  [one_page [overspent]; Ok {| Budgets := None |}]) None)
     = ("", 1).
Proof.
  assert (session (account_answering (Ok {| Budget := None |}) [])
            "123456789012") as Hs1
      by (repeat split; eexists; split; reflexivity).
  assert (session (account_answering (Ok {| Budget := None |})
                     [one_page [overspent]; Ok {| Budgets := None |}])
            "123456789012") as Hs2
      by (repeat split; eexists; split; reflexivity).
  split.
  - exact (proj2 (proj1 (missing_response_key _ _ Hs1)
                    (Some "infra") "infra" {| Budget := None |}
                    eq_refl eq_refl eq_refl)).
  - exact (proj2 (proj2 (missing_response_key _ _ Hs2)
                    None [[overspent]] [] eq_refl eq_refl)).
Defined.

(** What [main] does with the budgets fetched. *)
Lemma main_after_fetch (aws : boto3) (args_budget : option string)
    (budgets : list budget) :
  fetch aws args_budget "" = ("", Done budgets) ->
  main aws args_budget "" =
    match get_overspend budgets with
    | Raise e => ("", Stop (Raised e))
    | Ok res =>
        match get_perfdata budgets with
        | Raise e => ("", Stop (Raised e))
        | Ok perf =>
            if nonempty (res_true res)
            then ("Budget forecast exceeds limit: "
                    ++ String.concat ", " (res_true res) ++ perf ++ nl,
                  Stop (SystemExit STATE_CRIT))
            else ("Budgets forecast within limit: "
                    ++ String.concat ", " (res_false res) ++ perf ++ nl,
                  Stop (SystemExit STATE_OK))
        end
    end.
Proof.
  intro Hfetch.
  destruct (get_overspend budgets) as [res | e] eqn:Hres.
  - destruct (get_perfdata budgets) as [perf | e] eqn:Hperf.
    + apply (main_reports aws args_budget budgets Hfetch res perf Hres Hperf).
    + unfold main. cbn [bind io_monad]. rewrite Hfetch. unfold lift.
      rewrite Hres, Hperf. reflexivity.
  - unfold main. cbn [bind io_monad]. rewrite Hfetch. unfold lift.
    rewrite Hres. reflexivity.
Qed.

Lemma main_same_fetch (aws aws' : boto3) (args args' : option string) :
  fetch aws args "" = fetch aws' args' "" ->
  main aws args "" = main aws' args' "".
Proof.
  intro H. unfold main. cbn [bind io_monad]. rewrite H. reflexivity.
Qed.

Lemma truthy_nonempty (name : string) :
  name <> "" -> truthy (Some name) = Some name.
Proof.
  destruct name; [intro H; exfalso; apply H; reflexivity | reflexivity].
Qed.

(** X6.  The two modes.  An empty [--budget] value runs the all-budgets
    mode.  For accounts that agree on the clients and on the caller
    identity: a run with a budget name depends on [describe_budget] alone,
    not on the pages; a run without one depends on the pages alone. *)
Theorem mode_selection (aws aws' : boto3) :
  (forall service, client aws service = client aws' service) ->
  get_caller_identity aws = get_caller_identity aws' ->
  main aws (Some "") "" = main aws None ""
  /\ ((forall account name,
          describe_budget aws account name = describe_budget aws' account name) ->
      forall name, name <> "" ->
        main aws (Some name) "" = main aws' (Some name) "")
  /\ ((forall account, paginate aws account = paginate aws' account) ->
      forall args_budget, truthy args_budget = None ->
        main aws args_budget "" = main aws' args_budget "").
Proof.
  intros Hclient Hcaller. split; [reflexivity | split].
  - intros Hdescribe name Hname. apply main_same_fetch.
    pose proof (truthy_nonempty name Hname) as Harg.
    rewrite (fetch_named aws _ name Harg), (fetch_named aws' _ name Harg).
    assert (fetch_budget_try aws name = fetch_budget_try aws' name) as ->;
      [ | reflexivity].
    unfold fetch_budget_try. cbn [bind result_monad].
    rewrite !Hclient, Hcaller.
    destruct (client aws' "sts"); [ | reflexivity].
    destruct (get_caller_identity aws') as [caller | ]; [ | reflexivity].
    destruct (client aws' "budgets"); [ | reflexivity].
    destruct (item "Account" (Account caller)); [ | reflexivity].
    rewrite Hdescribe. reflexivity.
  - intros Hpages args_budget Harg. apply main_same_fetch.
    rewrite (fetch_all aws _ Harg), (fetch_all aws' _ Harg).
    assert (fetch_budgets_try aws = fetch_budgets_try aws') as ->;
      [ | reflexivity].
    unfold fetch_budgets_try. cbn [bind result_monad].
    rewrite !Hclient, Hcaller.
    destruct (client aws' "sts"); [ | reflexivity].
    destruct (get_caller_identity aws') as [caller | ]; [ | reflexivity].
    destruct (client aws' "budgets"); [ | reflexivity].
    destruct (item "Account" (Account caller)); [ | reflexivity].
    rewrite Hpages. reflexivity.
Qed.

(** With a name the pages, here a failing one, play no part; without a name
    the answer of [describe_budget] plays none. *)
Lemma mode_selection_witness :
  main (account_answering (Ok {| Budget := Some scenario_A |})
          [Raise (BotoCoreError endpoint_error)]) (Some "infra") ""
  = main (account_answering (Ok {| Budget := Some scenario_A |}) [])
      (Some "infra") ""
  /\ main (account_answering (Raise (ClientError access_denied))
             [one_page [compliant]]) None ""
     = main (account_answering (Ok {| Budget := Some overspent |})
               [one_page [compliant]]) None "".
Proof.
  split.
  - apply (proj1 (proj2 (mode_selection
                           (account_answering (Ok {| Budget := Some scenario_A |})
                              [Raise (BotoCoreError endpoint_error)])
                           (account_answering (Ok {| Budget := Some scenario_A |}) [])
                           (fun _ => eq_refl) eq_refl))).
    + intros account name. reflexivity.
    + intro H. discriminate H.
  - apply (proj2 (proj2 (mode_selection
                           (account_answering (Raise (ClientError access_denied))
                              [one_page [compliant]])
                           (account_answering (Ok {| Budget := Some overspent |})
                              [one_page [compliant]])
                           (fun _ => eq_refl) eq_refl))).
    + intro account. reflexivity.
    + reflexivity.
Defined.

(** ** Every run *)

(** X7.  The four ways a run ends once the arguments are parsed.  Whatever
    the provider does and whatever [args.budget] is, [main] from line 103 on
    never returns: either an exception leaves it with nothing printed, or it
    exits after printing exactly one of the UNKNOWN line with status 3, the
    CRITICAL line with status 2 and the OK line with status 0.  No path
    exits with [STATE_WARN]. *)
Theorem main_outcomes (aws : boto3) (args_budget : option string) :
  (exists e, main aws args_budget "" = ("", Stop (Raised e)))
  \/ (exists msg,
         main aws args_budget ""
         = ("UNKNOWN - " ++ msg ++ nl, Stop (SystemExit 3)))
  \/ (exists text,
         main aws args_budget ""
         = ("Budget forecast exceeds limit: " ++ text ++ nl,
            Stop (SystemExit 2)))
  \/ (exists text,
         main aws args_budget ""
         = ("Budgets forecast within limit: " ++ text ++ nl,
            Stop (SystemExit 0))).
Proof.
  assert (forall budgets,
             fetch aws args_budget "" = ("", Done budgets) ->
             (exists e, main aws args_budget "" = ("", Stop (Raised e)))
             \/ (exists msg,
                    main aws args_budget ""
                    = ("UNKNOWN - " ++ msg ++ nl, Stop (SystemExit 3)))
             \/ (exists text,
                    main aws args_budget ""
                    = ("Budget forecast exceeds limit: " ++ text ++ nl,
                       Stop (SystemExit 2)))
             \/ (exists text,
                    main aws args_budget ""
                    = ("Budgets forecast within limit: " ++ text ++ nl,
                       Stop (SystemExit 0)))) as Hdone.
  { intros budgets Hfetch.
    rewrite (main_after_fetch aws args_budget budgets Hfetch).
    destruct (get_overspend budgets) as [res | e]; [ | left; eauto].
    destruct (get_perfdata budgets) as [perf | e]; [ | left; eauto].
    destruct (nonempty (res_true res)).
    - right; right; left.
      exists (String.concat ", " (res_true res) ++ perf).
      rewrite !append_assoc. reflexivity.
    - right; right; right.
      exists (String.concat ", " (res_false res) ++ perf).
      rewrite !append_assoc. reflexivity. }
  destruct (truthy args_budget) as [name | ] eqn:Harg.
  - pose proof (fetch_named aws args_budget name Harg) as Hfetch.
    destruct (fetch_budget_try aws name) as [b | e].
    + apply (Hdone [b] Hfetch).
    + destruct (BotoCoreError_or_ClientError e) as [msg | ].
      * right; left. exists msg. apply main_fetch_stops. exact Hfetch.
      * left. exists e. apply main_fetch_stops. exact Hfetch.
  - pose proof (fetch_all aws args_budget Harg) as Hfetch.
    destruct (fetch_budgets_try aws) as [budgets | e].
    + apply (Hdone budgets Hfetch).
    + destruct (only_BotoCoreError e) as [msg | ].
      * right; left. exists msg. apply main_fetch_stops. exact Hfetch.
      * left. exists e. apply main_fetch_stops. exact Hfetch.
Qed.

(** X8.  One named budget, end to end.  With the session established and
    the budget returned, the line has the descriptor of that budget and its
    token and nothing else, under the heading and with the status that its
    classification selects. *)
Theorem named_mode_single (aws : boto3) (args_budget : option string)
    (account name d t : string) (response : describe_budget_response)
    (b : budget) (k : bool) :
  truthy args_budget = Some name ->
  session aws account ->
  describe_budget aws account name = Ok response ->
  Budget response = Some b ->
  classify b = Ok (k, d) ->
  perf_token b = Ok t ->
  run (main aws args_budget)
  = if k
    then ("Budget forecast exceeds limit: " ++ d ++ "| " ++ t ++ nl, 2)
    else ("Budgets forecast within limit: " ++ d ++ "| " ++ t ++ nl, 0).
Proof.
  intros Harg Hs Hresp Hb Hc Ht.
  assert (fetch aws args_budget "" = ("", Done [b])) as Hfetch.
  { rewrite (fetch_named aws args_budget name Harg).
    rewrite (session_fetch_budget_try aws account name Hs), Hresp.
    cbn [bind result_monad]. rewrite Hb. reflexivity. }
  unfold run. rewrite (main_after_fetch aws args_budget [b] Hfetch).
  unfold get_overspend, get_perfdata. cbn [overspend_loop perfdata_loop].
  rewrite Hc, Ht. cbn [bind result_monad ret fst snd].
  destruct k; cbn [res_append res_true res_false app nonempty String.concat];
    rewrite ?append_assoc; reflexivity.
Qed.

Lemma named_mode_single_witness :
  run (main (account_answering (Ok {| Budget := Some scenario_A |}) [])
         (Some "infra"))
  = ("Budget forecast exceeds limit: infra(fcst:120.00;limit:100.00)"
       ++ "| 'infra'=80.00USD;100.00;100.00" ++ nl, 2).
Proof.
  apply (named_mode_single _ (Some "infra") "123456789012" "infra"
           "infra(fcst:120.00;limit:100.00)" "'infra'=80.00USD;100.00;100.00"
           {| Budget := Some scenario_A |} scenario_A true eq_refl).
  - repeat split. eexists. split; reflexivity.
  - reflexivity.
  - reflexivity.
  - reflexivity.
  - reflexivity.
Defined.

(** ** The evaluator on its own *)

(** X9.  Classification composes.  When two lists classify, so does their
    concatenation, and its two lists are those of the first followed by
    those of the second. *)
Theorem get_overspend_app (l1 l2 : list budget) (r1 r2 : overspend) :
  get_overspend l1 = Ok r1 ->
  get_overspend l2 = Ok r2 ->
  get_overspend (l1 ++ l2)
  = Ok {| res_true := res_true r1 ++ res_true r2;
          res_false := res_false r1 ++ res_false r2 |}.
Proof.
  intros H1 H2.
  apply get_overspend_Ok in H1. destruct H1 as (cls1 & HF1 & ->).
  apply get_overspend_Ok in H2. destruct H2 as (cls2 & HF2 & ->).
  apply get_overspend_Ok. exists (cls1 ++ cls2)%list. split.
  - apply Forall2_app; assumption.
  - cbn [res_true res_false]. rewrite !filter_app, !map_app. reflexivity.
Qed.

Lemma get_overspend_app_witness :
  get_overspend ([scenario_A; compliant] ++ [overspent; scenario_B])
  = Ok {| res_true := ["infra(fcst:120.00;limit:100.00)"]
                      ++ ["db(fcst:30.00;limit:10.00)"];
          res_false := ["web(fcst:50.00;limit:50.00)"]
                       ++ ["{name}(act:{actual:.2f};limit:{limit:.2f})"] |}.
Proof.
  exact (get_overspend_app [scenario_A; compliant] [overspent; scenario_B]
           {| res_true := ["infra(fcst:120.00;limit:100.00)"];
              res_false := ["web(fcst:50.00;limit:50.00)"] |}
           {| res_true := ["db(fcst:30.00;limit:10.00)"];
              res_false := ["{name}(act:{actual:.2f};limit:{limit:.2f})"] |}
           eq_refl eq_refl).
Defined.

Lemma overspend_loop_Raise (budgets : list budget) (res : overspend) (e : exn) :
  overspend_loop budgets res = Raise e <->
  exists l1 b l2 cls,
    budgets = (l1 ++ b :: l2)%list
    /\ Forall2 (fun b kd => classify b = Ok kd) l1 cls
    /\ classify b = Raise e.
Proof.
  revert res. induction budgets as [ | b budgets IH]; intro res; simpl.
  - split; [intro H; discriminate H | ].
    intros (l1 & b & l2 & cls & Heq & _). destruct l1; discriminate Heq.
  - destruct (classify b) as [kd | e'] eqn:Hc; simpl.
    + rewrite IH. split.
      * intros (l1 & b' & l2 & cls & -> & HF & Hb').
        exists (b :: l1), b', l2, (kd :: cls).
        repeat split; [constructor | ]; assumption.
      * intros (l1 & b' & l2 & cls & Heq & HF & Hb').
        destruct l1 as [ | b0 l1]; simpl in Heq; inversion Heq; subst.
        -- rewrite Hc in Hb'. discriminate Hb'.
        -- inversion HF as [ | ? kd' ? cls' Hkd HF']; subst.
           exists l1, b', l2, cls'. repeat split; assumption.
    + split.
      * intro H. inversion H; subst.
        exists [], b, budgets, []. repeat split; [constructor | assumption].
      * intros (l1 & b' & l2 & cls & Heq & HF & Hb').
        destruct l1 as [ | b0 l1]; simpl in Heq; inversion Heq; subst.
        -- rewrite Hc in Hb'. inversion Hb'. reflexivity.
        -- inversion HF as [ | ? kd' ? cls' Hkd HF']; subst.
           rewrite Hc in Hkd. discriminate Hkd.
Qed.

(** X10.  The first failure decides.  [get_overspend] raises [e] exactly
    when some record fails to classify with [e] and all the records before
    it classify; the records after it are not looked at, and no partial
    result is returned. *)
Theorem get_overspend_first_error (budgets : list budget) (e : exn) :
  get_overspend budgets = Raise e <->
  exists l1 b l2 r1,
    budgets = (l1 ++ b :: l2)%list
    /\ get_overspend l1 = Ok r1
    /\ classify b = Raise e.
Proof.
  unfold get_overspend at 1. rewrite overspend_loop_Raise. split.
  - intros (l1 & b & l2 & cls & Heq & HF & Hb).
    exists l1, b, l2. eexists. repeat split; try eassumption.
    apply get_overspend_Ok. exists cls. split; [exact HF | reflexivity].
  - intros (l1 & b & l2 & r1 & Heq & H1 & Hb).
    apply get_overspend_Ok in H1. destruct H1 as (cls & HF & _).
    exists l1, b, l2, cls. repeat split; assumption.
Qed.

Lemma no_numeral_digits (s : string) (acc cnt : Z) :
  no_numeral s = true -> PyFloat.digits s acc cnt = (acc, cnt, s).
Proof.
  destruct s as [ | c s']; cbn [no_numeral PyFloat.digits]; [reflexivity | ].
  unfold PyFloat.digit_of.
  destruct ((48 <=? Z.of_N (N_of_ascii c)) && (Z.of_N (N_of_ascii c) <=? 57));
    [ | reflexivity].
  rewrite andb_false_r. discriminate.
Qed.

Lemma no_numeral_tail (c : ascii) (s : string) :
  no_numeral (String c s) = true -> no_numeral s = true.
Proof.
  cbn [no_numeral]. intro H. apply andb_prop in H. apply H.
Qed.

Lemma no_numeral_unsigned (sg : bool) (s : string) :
  no_numeral s = true -> PyFloat.unsigned_of_str sg s = None.
Proof.
  intro H. unfold PyFloat.unsigned_of_str.
  rewrite (no_numeral_digits s 0 0 H).
  destruct s as [ | c frac]; [reflexivity | ].
  pose proof (no_numeral_tail c frac H) as Hfrac.
  destruct c as [[ | ] [ | ] [ | ] [ | ] [ | ] [ | ] [ | ] [ | ]];
    try reflexivity.
  rewrite (no_numeral_digits frac 0 0 Hfrac).
  destruct frac; reflexivity.
Qed.

(** [float] has nothing to convert in such a text. *)
Lemma no_numeral_float (s : string) :
  no_numeral s = true -> float s = Raise (ValueError s).
Proof.
  intro H. unfold float.
  assert (PyFloat.of_str s = None) as ->; [ | reflexivity].
  unfold PyFloat.of_str. destruct s as [ | c s'].
  - reflexivity.
  - pose proof (no_numeral_tail c s' H) as Hs'.
    pose proof (no_numeral_unsigned true s' Hs') as Ht.
    pose proof (no_numeral_unsigned false s' Hs') as Hf.
    pose proof (no_numeral_unsigned false (String c s') H) as Hu.
    destruct c as [[ | ] [ | ] [ | ] [ | ] [ | ] [ | ] [ | ] [ | ]];
      assumption.
Qed.

(** X11.  No fall-back on a bad forecast.  [except KeyError] is for a
    forecast that is not there: when the forecast amount is there and is a
    text without a digit (and no spelling of an infinity or a NaN), the
    [ValueError] of [float] leaves the loop body and the record is not
    classified on its actual spend, whatever that is. *)
Theorem forecast_not_numeric (b : budget) (name la fa : string)
    (limit : PyFloat.float) :
  BudgetName b = Some name ->
  limit_amount b = Ok la -> float la = Ok limit ->
  forecast_amount b = Ok fa ->
  no_numeral fa = true ->
  classify b = Raise (ValueError fa).
Proof.
  intros Hn Hla Hl Hfa Hno.
  unfold classify. rewrite Hn, Hla. simpl. rewrite Hl. simpl.
  rewrite Hfa. simpl. rewrite (no_numeral_float fa Hno). reflexivity.
Qed.

Lemma forecast_not_numeric_witness :
  classify not_numeric = Raise (ValueError "TBD").
Proof.
  exact (forecast_not_numeric not_numeric "infra" "100.00" "TBD"
           (S754_finite false 7036874417766400 (-46))
           eq_refl eq_refl eq_refl eq_refl eq_refl).
Defined.

(** ** Two decimals *)

Lemma string_of_uint_digits (d : Decimal.uint) :
  all_digits (NilEmpty.string_of_uint d) = true.
Proof.
  induction d; simpl; try rewrite IHd; reflexivity.
Qed.

Lemma str_of_nat_Z_digits (n : Z) :
  PyFloat.str_of_nat_Z n <> "" /\ all_digits (PyFloat.str_of_nat_Z n) = true.
Proof.
  unfold PyFloat.str_of_nat_Z, NilZero.string_of_uint.
  destruct (N.to_uint (Z.to_N n)) as [ | d | d | d | d | d | d | d | d | d | d ];
    (split; [discriminate | ]); try reflexivity;
    simpl; apply string_of_uint_digits.
Qed.

Lemma is_digit_of (c : ascii) (d : Z) :
  PyFloat.digit_of c = Some d -> is_digit c = true.
Proof.
  unfold is_digit. intros ->. reflexivity.
Qed.

(** Zeros and finite floats are rendered with two decimals. *)
Lemma format_2f_two_decimals (x : PyFloat.float) :
  PyFloat.finite x = true -> two_decimals (PyFloat.format_2f x).
Proof.
  destruct x as [s | s | | s m e]; simpl; intro H; try discriminate H.
  - exists (PyFloat.sign_str s), "0", "0"%char, "0"%char.
    repeat split; try reflexivity; try discriminate.
    destruct s; [right | left]; reflexivity.
  - set (h := PyFloat.hundredths m e).
    destruct (str_of_digit (h mod 100 / 10)) as (c1 & Hc1 & Hd1).
    { pose proof (Z.mod_pos_bound h 100 ltac:(lia)) as Hb.
      split; [apply Z.div_pos; lia | ].
      apply Z.lt_succ_r. apply Z.div_lt_upper_bound; lia. }
    destruct (str_of_digit (h mod 10)) as (c2 & Hc2 & Hd2).
    { pose proof (Z.mod_pos_bound h 10 ltac:(lia)). lia. }
    destruct (str_of_nat_Z_digits (h / 100)) as [Hne Hall].
    exists (PyFloat.sign_str s), (PyFloat.str_of_nat_Z (h / 100)), c1, c2.
    repeat split; try assumption.
    + unfold PyFloat.fixed2. fold h. rewrite Hc1, Hc2. reflexivity.
    + destruct s; [right | left]; reflexivity.
    + apply (is_digit_of c1 _ Hd1).
    + apply (is_digit_of c2 _ Hd2).
Qed.

(** X12.  Two decimals in the forecast descriptor.  For a record classified
    on its forecast, with a finite forecast and a finite limit, the
    descriptor is [name(fcst:F;limit:L)] where [F] and [L] each are an
    optional minus sign, digits, a point and exactly two digits. *)
Theorem fcst_descriptor_two_decimals (b : budget) (name la fa : string)
    (limit forecast : PyFloat.float) :
  BudgetName b = Some name ->
  limit_amount b = Ok la -> float la = Ok limit ->
  forecast_amount b = Ok fa -> float fa = Ok forecast ->
  PyFloat.finite limit = true -> PyFloat.finite forecast = true ->
  exists F L,
    classify b
    = Ok (PyFloat.gt forecast limit,
          name ++ "(fcst:" ++ F ++ ";limit:" ++ L ++ ")")
    /\ two_decimals F /\ two_decimals L.
Proof.
  intros Hn Hla Hl Hfa Hf Hlfin Hffin.
  exists (PyFloat.format_2f forecast), (PyFloat.format_2f limit).
  split; [ | split].
  - eapply classify_forecast; eassumption.
  - apply format_2f_two_decimals. exact Hffin.
  - apply format_2f_two_decimals. exact Hlfin.
Qed.

(** A forecast of 49.999 against a limit of 50.0: shown as 50.00 on both
    sides, and within the limit. *)
Lemma fcst_descriptor_two_decimals_witness :
  exists F L,
    classify compliant = Ok (false, "web" ++ "(fcst:" ++ F ++ ";limit:" ++ L ++ ")")
    /\ two_decimals F /\ two_decimals L.
Proof.
  exact (fcst_descriptor_two_decimals compliant "web" "50.0" "49.999"
           (S754_finite false 7036874417766400 (-47))
           (S754_finite false 7036733680278045 (-47))
           eq_refl eq_refl eq_refl eq_refl eq_refl eq_refl eq_refl).
Defined.

(** ** Performance data on its own *)




(** ** The OK line *)

(** X14.  Coverage of the OK line.  After a successful fetch of well-formed
    records none of which is overspent, the line lists the descriptor of
    every record, in the order of the input, followed by the token of every
    record, and the status is 0. *)
Theorem ok_line_lists_all (aws : boto3) (args_budget : option string)
    (budgets : list budget) :
  fetch aws args_budget "" = ("", Done budgets) ->
  forallb well_formed budgets = true ->
  (forall b, In b budgets -> exists d, classify b = Ok (false, d)) ->
  exists descriptors tokens,
    Forall2 (fun b d => classify b = Ok (false, d)) budgets descriptors
    /\ Forall2 (fun b t => perf_token b = Ok t) budgets tokens
    /\ run (main aws args_budget)
       = ("Budgets forecast within limit: "
            ++ String.concat ", " descriptors
            ++ "| " ++ String.concat " " tokens ++ nl, 0).
Proof.
  intros Hfetch Hwf Hall.
  destruct (well_formed_evaluates budgets Hwf)
    as (cls & tokens & Hcls & Htok & Hres & Hperf).
  exists (map snd cls), tokens.
  assert (Forall2 (fun b d => classify b = Ok (false, d)) budgets (map snd cls)
          /\ filter fst cls = [] /\ filter within cls = cls) as (HF & Ht & Hw).
  { clear - Hall Hcls. induction Hcls as [ | b [k d] bs cls Hb HF IH]; simpl.
    - repeat split. constructor.
    - destruct (Hall b (or_introl eq_refl)) as [d' Hd'].
      rewrite Hb in Hd'. inversion Hd'; subst. simpl.
      destruct IH as (IH1 & IH2 & IH3).
      { intros b' Hin. apply Hall. right. exact Hin. }
      repeat split; [constructor; assumption | assumption | ].
      f_equal. exact IH3. }
  split; [exact HF | split; [exact Htok | ]].
  unfold run. rewrite (main_after_fetch aws args_budget budgets Hfetch).
  rewrite Hres, Hperf. cbn [res_true res_false]. rewrite Ht, Hw.
  cbn [map nonempty exit_status]. rewrite !append_assoc. reflexivity.
Qed.

Lemma ok_line_lists_all_witness :
  run (main (account_with [one_page [compliant]; one_page [scenario_B]]) None)
  = ("Budgets forecast within limit: "
       ++ "web(fcst:50.00;limit:50.00), {name}(act:{actual:.2f};limit:{limit:.2f})"
       ++ "| 'web'=10.5USD;50.0;50.0 'infra'=80.00USD;100.00;100.00" ++ nl, 0).
Proof.
  destruct (ok_line_lists_all
              (account_with [one_page [compliant]; one_page [scenario_B]]) None
              [compliant; scenario_B] eq_refl eq_refl)
    as (ds & tokens & Hds & Htok & Hrun).
  - intros b [<- | [<- | []]]; eexists; reflexivity.
  - inversion Hds as [ | ? d1 ? ds1 H1 Hds1]; subst.
    inversion Hds1 as [ | ? d2 ? ds2 H2 Hds2]; subst.
    inversion Hds2; subst.
    inversion Htok as [ | ? t1 ? ts1 T1 Htok1]; subst.
    inversion Htok1 as [ | ? t2 ? ts2 T2 Htok2]; subst.
    inversion Htok2; subst.
    vm_compute in H1, H2, T1, T2.
    inversion H1; inversion H2; inversion T1; inversion T2; subst.
    exact Hrun.
Defined.

(** ** The errors of the loop body *)

(** X15.  The errors of classification.  The body of the loop of
    [get_overspend] raises a [ValueError] for an amount that is no numeral,
    or a [KeyError] for one of [BudgetName], [BudgetLimit], [Amount],
    [CalculatedSpend] and [ActualSpend]; a missing [ForecastedSpend] is
    never reported. *)
Theorem classify_errors (b : budget) (e : exn) :
  classify b = Raise e ->
  (exists arg, e = ValueError arg)
  \/ e = KeyError "BudgetName" \/ e = KeyError "BudgetLimit"
  \/ e = KeyError "Amount" \/ e = KeyError "CalculatedSpend"
  \/ e = KeyError "ActualSpend".
Proof.
  unfold classify, limit_amount, forecast_amount, actual_amount,
    try_except_KeyError, float, item.
  cbn [bind result_monad ret].
  repeat match goal with
         | |- context [match ?x with Some _ => _ | None => _ end] =>
             destruct x
         end;
    intro H; inversion H; eauto 7.
Qed.

(** Without [CalculatedSpend] the error is that of the handler, which looks
    the actual spend up under the same key. *)
Lemma classify_errors_witness :
  (exists arg, KeyError "CalculatedSpend" = ValueError arg)
  \/ KeyError "CalculatedSpend" = KeyError "BudgetName"
  \/ KeyError "CalculatedSpend" = KeyError "BudgetLimit"
  \/ KeyError "CalculatedSpend" = KeyError "Amount"
  \/ KeyError "CalculatedSpend" = KeyError "CalculatedSpend"
  \/ KeyError "CalculatedSpend" = KeyError "ActualSpend".
Proof.
  exact (classify_errors
           {| BudgetName := Some "infra"; BudgetLimit := Some (usd "100.00");
              CalculatedSpend := None |}
           (KeyError "CalculatedSpend") eq_refl).
Defined.
